(** * Strategy X of the Ethos-N support library: stripe and tile selection

    A shallow embedding of
    [driver/support_library/src/nonCascading/StrategyX.cpp]:
    the block-config filter, the stripe-shape resolver [TryStripeShapes],
    the two traversal searches and the strategy entry points, followed by
    the properties of the tiling search that hold of that code.

    Conventions.
    - [uint32_t] values are integers in [Z]; every addition, subtraction and
      multiplication of the source is written with its reduction modulo 2^32.
    - [/] and [%] of the source are [Z.div] and [Z.modulo]; a zero divisor is
      undefined behaviour in the source and is given [Z]'s total value here,
      so statements that depend on a divisor say that it is positive.
    - A function taking [SramAllocator&] and [TensorConfig&] takes both as
      arguments and returns both next to its [bool].
    - [assert] is modelled as a fault that stops the computation. *)

From Stdlib Require Import ZArith List Bool Lia Permutation.
Import ListNotations.
Local Open Scope Z_scope.

(** ** 32-bit unsigned arithmetic *)

Definition wrap32 (x : Z) : Z := x mod 2 ^ 32.
Definition add32 (a b : Z) : Z := wrap32 (a + b).
Definition sub32 (a b : Z) : Z := wrap32 (a - b).
Definition mul32 (a b : Z) : Z := wrap32 (a * b).

(** ** Enumerations and plain data *)

Inductive MceOperation := CONVOLUTION | DEPTHWISE_CONVOLUTION | FULLY_CONNECTED.
Inductive UpsampleType := OFF | BILINEAR | NEAREST_NEIGHBOUR | TRANSPOSE.
Inductive DataFormat := NHWC | NHWCB | HWIO | HWIM.
Inductive CompilerMceAlgorithm := AlgNone | Direct | Winograd.
Inductive Strategy :=
  | NONE | STRATEGY_0 | STRATEGY_1 | STRATEGY_3 | STRATEGY_4
  | STRATEGY_6 | STRATEGY_7 | STRATEGY_X | STRATEGY_FC.

Inductive WeightsReloadingOptions :=
  | NO_RELOADING
  | RELOADING_DOUBLE_BUFFERING
  | RELOADING_NO_DOUBLE_BUFFERING.

Definition MceOperation_eqb (a b : MceOperation) : bool :=
  match a, b with
  | CONVOLUTION, CONVOLUTION => true
  | DEPTHWISE_CONVOLUTION, DEPTHWISE_CONVOLUTION => true
  | FULLY_CONNECTED, FULLY_CONNECTED => true
  | _, _ => false
  end.

Definition UpsampleType_eqb (a b : UpsampleType) : bool :=
  match a, b with
  | OFF, OFF | BILINEAR, BILINEAR
  | NEAREST_NEIGHBOUR, NEAREST_NEIGHBOUR | TRANSPOSE, TRANSPOSE => true
  | _, _ => false
  end.

Definition DataFormat_eqb (a b : DataFormat) : bool :=
  match a, b with
  | NHWC, NHWC | NHWCB, NHWCB | HWIO, HWIO | HWIM, HWIM => true
  | _, _ => false
  end.

Definition Strategy_eqb (a b : Strategy) : bool :=
  match a, b with
  | NONE, NONE | STRATEGY_0, STRATEGY_0 | STRATEGY_1, STRATEGY_1
  | STRATEGY_3, STRATEGY_3 | STRATEGY_4, STRATEGY_4 | STRATEGY_6, STRATEGY_6
  | STRATEGY_7, STRATEGY_7 | STRATEGY_X, STRATEGY_X
  | STRATEGY_FC, STRATEGY_FC => true
  | _, _ => false
  end.

(** [TensorShape] is [std::array<uint32_t, 4>]; the field [dim k] is the
    source's [shape[k]]. *)
Record TensorShape := mkShape { dim0 : Z; dim1 : Z; dim2 : Z; dim3 : Z }.

Definition GetHeight (s : TensorShape) : Z := dim1 s.
Definition GetWidth (s : TensorShape) : Z := dim2 s.
Definition GetChannels (s : TensorShape) : Z := dim3 s.

Record BlockConfig := mkBlock { m_BlockWidth : Z; m_BlockHeight : Z }.

Record HardwareCapabilities := mkCaps {
  GetBrickGroupShape : TensorShape;
  GetNumberOfSrams : Z;
  GetNumberOfOfm : Z;
  GetTotalAccumulatorsPerEngine : Z;
  GetActivationCompressionVersion : Z
}.

Record Fraction := mkFraction { m_Numerator : Z; m_Denominator : Z }.
Record ShapeMultiplier := mkMultiplier {
  m_H : Fraction; m_W : Fraction; m_C : Fraction
}.

Record NeedBoundary := mkNeed { m_Before : bool; m_After : bool }.

Record AllocationResult := mkResult {
  m_Success : bool;
  m_InputOffset : Z;
  m_WeightOffset : Z;
  m_OutputOffset : Z
}.

Record SramAllocation := mkAllocation {
  stripeShape : TensorShape;
  tileSize : Z;
  offset : Z
}.

Record TensorConfig := mkConfig {
  inputAllocation : SramAllocation;
  outputAllocation : SramAllocation;
  weightsAllocation : SramAllocation;
  blockWidth : Z;
  blockHeight : Z;
  strategy : Strategy
}.

(** ** Helpers of [Utils.hpp] *)

(** Modelled from the spec: [DivRoundUp] of Utils.hpp, the ceiling of
    numerator over denominator, computed in 32-bit unsigned arithmetic. *)
Definition DivRoundUp (numerator denominator : Z) : Z :=
  sub32 (add32 numerator denominator) 1 / denominator.

(** Modelled from the spec: [RoundUpToNearestMultiple] of Utils.hpp, the
    least multiple of the second argument that is not below the first,
    computed in 32-bit unsigned arithmetic. *)
Definition RoundUpToNearestMultiple (num nearestMultiple : Z) : Z :=
  let remainder := num mod nearestMultiple in
  if remainder =? 0 then num else sub32 (add32 num nearestMultiple) remainder.

(** Modelled from the spec: the arithmetic of [Fraction] in Utils.hpp. A
    shape multiplier is a rational used as a multiplier and as a divisor of
    an unsigned integer; both truncate. *)
Definition mulFraction (i : Z) (f : Fraction) : Z :=
  mul32 i (m_Numerator f) / m_Denominator f.

Definition divFraction (i : Z) (f : Fraction) : Z :=
  mul32 i (m_Denominator f) / m_Numerator f.

Definition Fraction_mul (a b : Fraction) : Fraction :=
  mkFraction (mul32 (m_Numerator a) (m_Numerator b))
             (mul32 (m_Denominator a) (m_Denominator b)).

Definition ShapeMultiplier_mul (a b : ShapeMultiplier) : ShapeMultiplier :=
  mkMultiplier (Fraction_mul (m_H a) (m_H b))
               (Fraction_mul (m_W a) (m_W b))
               (Fraction_mul (m_C a) (m_C b)).

(** Modelled from the spec: [TotalSizeBytes] of Utils.hpp, the byte size of
    a tensor of one-byte elements. *)
Definition TotalSizeBytes (s : TensorShape) : Z :=
  mul32 (mul32 (mul32 (dim0 s) (dim1 s)) (dim2 s)) (dim3 s).

(** ** Lines 31-74: the block-config filter *)

Definition IsUpsampling (upsampleType : UpsampleType) : bool :=
  negb (UpsampleType_eqb upsampleType OFF).

Definition IsFullyConnected (mceOperation : MceOperation) : bool :=
  MceOperation_eqb mceOperation FULLY_CONNECTED.

Definition IsBlockConfigCompatible (blockConfig : BlockConfig)
    (capabilities : HardwareCapabilities) (mceOperation : MceOperation)
    (upsampleType : UpsampleType) : bool :=
  let numAccumulatorsPerOg := GetTotalAccumulatorsPerEngine capabilities in
  let currBlockWidth := m_BlockWidth blockConfig in
  let currBlockHeight := m_BlockHeight blockConfig in
  let numberOfElementsInABlock := mul32 currBlockWidth currBlockHeight in
  let isUpsampling := IsUpsampling upsampleType in
  let isFullyConnected := IsFullyConnected mceOperation in
  if numberOfElementsInABlock >? numAccumulatorsPerOg then false
  else if isFullyConnected
          && (negb (currBlockWidth =? 8) || negb (currBlockHeight =? 8))
  then false
  else if isUpsampling
          && (negb (currBlockWidth =? 16) || negb (currBlockHeight =? 16))
  then false
  else true.

(** ** The collaborators of the search

    The scratch-memory allocator, the weight-size estimator, the boundary
    rule, the full-dimension rule and the weight-vector constant are declared
    in headers that are not part of this file's source; the search uses them
    only through this interface. [FitsInSram] receives the allocator by
    reference and may change it, so it returns the allocator as well. *)

Class Externals := {
  SramAllocator : Type;
  FitsInSram :
    SramAllocator -> HardwareCapabilities -> Z -> Z -> Z -> bool * Z ->
    SramAllocator * AllocationResult;
  EstimateWeightSizeBytes : TensorShape -> HardwareCapabilities -> bool -> Z;
  GetBoundaryRequirements : Z -> Z -> Z -> Z -> Z -> NeedBoundary;
  AccountForFullDimension : Z -> Z -> Z -> Fraction -> Z;
  g_WeightsChannelVecProd : Z
}.

(** Modelled from the spec: [FillTensorConfigOffsets] of
    StrategiesCommon.hpp, which writes the allocator offsets of the three
    tiles into the configuration. *)
Definition FillTensorConfigOffsets (allocationResults : AllocationResult)
    (outTensorConfig : TensorConfig) : TensorConfig :=
  let setOffset (a : SramAllocation) (o : Z) :=
    mkAllocation (stripeShape a) (tileSize a) o in
  mkConfig
    (setOffset (inputAllocation outTensorConfig) (m_InputOffset allocationResults))
    (setOffset (outputAllocation outTensorConfig) (m_OutputOffset allocationResults))
    (setOffset (weightsAllocation outTensorConfig) (m_WeightOffset allocationResults))
    (blockWidth outTensorConfig)
    (blockHeight outTensorConfig)
    (strategy outTensorConfig).

(** ** Assertions *)

Inductive Assertion :=
  | WeightsMustBeHwio              (* line 191 *)
  | CompressionNeedsVersion1       (* line 260 *)
  | AvoidReloadingNeedsBuffering.  (* line 424 *)

Inductive outcome (A : Type) :=
  | AssertFails (a : Assertion)
  | Returns (x : A).
Arguments AssertFails {A} a.
Arguments Returns {A} x.

Definition b2z (b : bool) : Z := if b then 1 else 0.

(** ** Lines 80-327: the stripe-shape resolver *)

(** The parameters that [TryStripeShapes] receives by value or by const
    reference (lines 80-98), in the order of its declaration. The two
    parameters it receives by mutable reference, [sramAllocator] and
    [outTensorConfig], are threaded separately. *)
Record ResolverArgs := mkArgs {
  arg_mceOperation : MceOperation;
  arg_requestedOutputStripe : TensorShape;
  arg_requestedInputChannels : Z;
  arg_inputShape : TensorShape;
  arg_outputShape : TensorShape;
  arg_weightsFormat : DataFormat;
  arg_weightsShape : TensorShape;
  arg_capabilities : HardwareCapabilities;
  arg_mceShapeMultiplier : ShapeMultiplier;
  arg_pleShapeMultiplier : ShapeMultiplier;
  arg_pad : Z * Z;
  arg_inputStaticAndOffset : bool * Z;
  arg_depthMax : Z;
  arg_allowInputBuffering : bool;
  arg_avoidInputReloading : bool;
  arg_activationCompression : bool;
  arg_weightsReloading : WeightsReloadingOptions
}.

(** Each definition of this section is one local of [TryStripeShapes], under
    the name it has in the source. A local that the source assigns twice has
    its earlier values under the names [_requested] (as first computed) and
    [_capped] (after the depthMax cap). *)

Section StripeShapes.

Context {E : Externals}.

Variable args : ResolverArgs.

Local Abbreviation mceOperation := (arg_mceOperation args).
Local Abbreviation requestedOutputStripe := (arg_requestedOutputStripe args).
Local Abbreviation requestedInputChannels := (arg_requestedInputChannels args).
Local Abbreviation inputShape := (arg_inputShape args).
Local Abbreviation outputShape := (arg_outputShape args).
Local Abbreviation weightsFormat := (arg_weightsFormat args).
Local Abbreviation weightsShape := (arg_weightsShape args).
Local Abbreviation capabilities := (arg_capabilities args).
Local Abbreviation mceShapeMultiplier := (arg_mceShapeMultiplier args).
Local Abbreviation pleShapeMultiplier := (arg_pleShapeMultiplier args).
Local Abbreviation pad := (arg_pad args).
Local Abbreviation inputStaticAndOffset := (arg_inputStaticAndOffset args).
Local Abbreviation depthMax := (arg_depthMax args).
Local Abbreviation allowInputBuffering := (arg_allowInputBuffering args).
Local Abbreviation avoidInputReloading := (arg_avoidInputReloading args).
Local Abbreviation activationCompression := (arg_activationCompression args).
Local Abbreviation weightsReloading := (arg_weightsReloading args).

Definition isFullyConnected : bool := MceOperation_eqb mceOperation FULLY_CONNECTED.
Definition isHwio : bool := DataFormat_eqb weightsFormat HWIO.

Definition brickGroupHeight : Z := GetHeight (GetBrickGroupShape capabilities).
Definition brickGroupWidth : Z := GetWidth (GetBrickGroupShape capabilities).
Definition brickGroupChannels : Z := GetChannels (GetBrickGroupShape capabilities).
Definition shapeMultiplier : ShapeMultiplier :=
  ShapeMultiplier_mul mceShapeMultiplier pleShapeMultiplier.

Definition outputStripeWidthMin : Z :=
  mulFraction brickGroupWidth (m_W shapeMultiplier).
Definition outputStripeWidthMax : Z :=
  RoundUpToNearestMultiple (GetWidth outputShape) brickGroupWidth.
Definition outputStripeWidth_requested : Z :=
  Z.min (RoundUpToNearestMultiple (GetWidth requestedOutputStripe) outputStripeWidthMin)
        outputStripeWidthMax.

Definition outputStripeHeightMin : Z :=
  mulFraction brickGroupHeight (m_H shapeMultiplier).
Definition outputStripeHeightMax : Z :=
  RoundUpToNearestMultiple (GetHeight outputShape) brickGroupHeight.
Definition outputStripeHeight_requested : Z :=
  Z.min (RoundUpToNearestMultiple (GetHeight requestedOutputStripe) outputStripeHeightMin)
        outputStripeHeightMax.

Definition outputStripeChannels_requested : Z :=
  if (DivRoundUp (GetChannels outputShape) (GetChannels requestedOutputStripe) >? 1)
     && (GetChannels requestedOutputStripe
         >? mulFraction brickGroupChannels (m_C shapeMultiplier))
  then RoundUpToNearestMultiple (GetChannels requestedOutputStripe)
         (mulFraction brickGroupChannels (m_C shapeMultiplier))
  else RoundUpToNearestMultiple (GetChannels requestedOutputStripe)
         (mulFraction (GetNumberOfSrams capabilities) (m_C shapeMultiplier)).

Definition inputStripeHeightPre : Z :=
  AccountForFullDimension (GetHeight outputShape) (GetHeight inputShape)
    outputStripeHeight_requested (m_H shapeMultiplier).
Definition inputStripeHeight : Z :=
  RoundUpToNearestMultiple (Z.min inputStripeHeightPre (GetHeight inputShape))
    brickGroupHeight.

Definition inputStripeWidthPre : Z :=
  AccountForFullDimension (GetWidth outputShape) (GetWidth inputShape)
    outputStripeWidth_requested (m_W shapeMultiplier).
Definition inputStripeWidth : Z :=
  RoundUpToNearestMultiple (Z.min inputStripeWidthPre (GetWidth inputShape))
    brickGroupWidth.

Definition outputStripeChannels_capped : Z :=
  if DivRoundUp (GetHeight inputShape) inputStripeHeight >? 1
  then Z.min outputStripeChannels_requested depthMax
  else outputStripeChannels_requested.

Definition mceOutputStripe : TensorShape :=
  mkShape 1
    (divFraction outputStripeHeight_requested (m_H pleShapeMultiplier))
    (divFraction outputStripeWidth_requested (m_W pleShapeMultiplier))
    (divFraction outputStripeChannels_capped (m_C pleShapeMultiplier)).

Definition strideSize : Z :=
  DivRoundUp
    (RoundUpToNearestMultiple (GetChannels inputShape) (GetNumberOfSrams capabilities))
    (RoundUpToNearestMultiple (dim2 weightsShape) (GetNumberOfSrams capabilities)).

Definition inputStripeChannels : Z :=
  if (DivRoundUp (GetChannels inputShape) requestedInputChannels >? 1)
     && (requestedInputChannels >? mul32 brickGroupChannels strideSize)
  then RoundUpToNearestMultiple requestedInputChannels
         (mul32 brickGroupChannels strideSize)
  else RoundUpToNearestMultiple requestedInputChannels
         (mul32 (GetNumberOfSrams capabilities) strideSize).

Definition inputStripe : TensorShape :=
  mkShape 1 inputStripeHeight inputStripeWidth inputStripeChannels.

Definition weightStripeChannels : Z :=
  if isFullyConnected
  then RoundUpToNearestMultiple
         (mul32 (mul32 (GetHeight inputStripe) (GetWidth inputStripe))
                (GetChannels inputStripe))
         g_WeightsChannelVecProd
  else GetChannels inputStripe.

Definition weightStripe : TensorShape :=
  mkShape (dim0 weightsShape) (dim1 weightsShape) weightStripeChannels
          (GetChannels mceOutputStripe).

Definition needBoundaryY : NeedBoundary :=
  GetBoundaryRequirements (fst pad) (GetHeight inputShape) (GetHeight inputStripe)
    (GetHeight mceOutputStripe) (dim0 weightsShape).

Definition needsBoundarySlots : bool :=
  m_Before needBoundaryY || m_After needBoundaryY.
Definition inputStripeXZ : Z :=
  mul32 (GetWidth inputStripe) (GetChannels inputStripe).

Definition boundarySlotSize : Z :=
  if needsBoundarySlots then mul32 brickGroupHeight inputStripeXZ else 0.
Definition defaultSlotSize : Z := TotalSizeBytes inputStripe.

Definition totalSlotSize : Z := add32 (mul32 2 boundarySlotSize) defaultSlotSize.

Definition numInputStripesTotalX : Z :=
  DivRoundUp (GetWidth inputShape) (GetWidth inputStripe).
Definition numInputStripesTotalY : Z :=
  DivRoundUp (GetHeight inputShape) (GetHeight inputStripe).
Definition numInputStripesTotalZ : Z :=
  DivRoundUp (GetChannels inputShape) (GetChannels inputStripe).

Definition needBoundaryX : NeedBoundary :=
  GetBoundaryRequirements (snd pad) (GetWidth inputShape) (GetWidth inputStripe)
    (GetWidth mceOutputStripe) (dim1 weightsShape).

Definition numInputSlots : Z :=
  Z.min (add32 (add32 1 (b2z (m_Before needBoundaryX))) (b2z (m_After needBoundaryX)))
        numInputStripesTotalX.

Definition isFullHeight : bool := numInputStripesTotalY =? 1.
Definition isFullWidth : bool := numInputStripesTotalX =? 1.
Definition numInputSlotGroupsMax : Z :=
  if avoidInputReloading && isFullHeight && isFullWidth
  then mul32 (mul32 numInputStripesTotalX numInputStripesTotalY) numInputStripesTotalZ
  else 2.

Definition needSlotGroups : bool :=
  GetChannels inputShape >? GetChannels inputStripe.
Definition inputTile : Z :=
  mul32 (mul32 totalSlotSize numInputSlots)
        (if allowInputBuffering && needSlotGroups then numInputSlotGroupsMax else 1).

Definition numWeightStripesInTile : Z :=
  if negb isFullyConnected
  then match weightsReloading with
       | NO_RELOADING =>
           DivRoundUp (GetChannels inputShape) (GetChannels inputStripe)
       | RELOADING_DOUBLE_BUFFERING => 2
       | RELOADING_NO_DOUBLE_BUFFERING => 1
       end
  else 2.

Definition weightTile : Z :=
  mul32 (EstimateWeightSizeBytes weightStripe capabilities
           (DataFormat_eqb weightsFormat HWIM))
        numWeightStripesInTile.

Definition minFcafDepth : Z :=
  if (dim1 outputShape <=? 8) && (dim2 outputShape <=? 8) then 32 else 16.

(** The condition under which lines 279-281 run. *)
Definition fcafWidens : bool :=
  activationCompression && (minFcafDepth >? outputStripeChannels_capped).

Definition outputStripeChannels : Z :=
  if fcafWidens then minFcafDepth else outputStripeChannels_capped.
Definition outputStripeHeight : Z :=
  if fcafWidens then RoundUpToNearestMultiple (dim1 outputShape) 8
  else outputStripeHeight_requested.
Definition outputStripeWidth : Z :=
  if fcafWidens then RoundUpToNearestMultiple (dim2 outputShape) 8
  else outputStripeWidth_requested.

Definition outputStripe : TensorShape :=
  mkShape 1 outputStripeHeight outputStripeWidth outputStripeChannels.

Definition maxNumOutputStripesInTile : Z := 2.
Definition numOutputStripesTotalX : Z :=
  DivRoundUp (GetWidth outputShape) (GetWidth outputStripe).
Definition numOutputStripesTotalY : Z :=
  DivRoundUp (GetHeight outputShape) (GetHeight outputStripe).
Definition numOutputStripesTotalZ : Z :=
  DivRoundUp (GetChannels outputShape) (GetChannels outputStripe).
Definition numOutputStripesTotal : Z :=
  mul32 (mul32 numOutputStripesTotalX numOutputStripesTotalY) numOutputStripesTotalZ.
Definition numOutputStripesInTile : Z :=
  Z.min maxNumOutputStripesInTile numOutputStripesTotal.
Definition outputTileMax : Z :=
  TotalSizeBytes
    (mkShape 1
       (RoundUpToNearestMultiple (GetHeight outputShape) brickGroupHeight)
       (RoundUpToNearestMultiple (GetWidth outputShape) brickGroupWidth)
       (RoundUpToNearestMultiple (GetChannels outputShape)
          (GetNumberOfOfm capabilities))).
Definition outputTile : Z :=
  Z.min (mul32 (TotalSizeBytes outputStripe) numOutputStripesInTile) outputTileMax.

(** Lines 317-322: the stripe shapes and tile sizes written on success. *)
Definition writeStripesAndTiles (outTensorConfig : TensorConfig) : TensorConfig :=
  mkConfig
    (mkAllocation inputStripe inputTile (offset (inputAllocation outTensorConfig)))
    (mkAllocation outputStripe outputTile (offset (outputAllocation outTensorConfig)))
    (mkAllocation weightStripe weightTile (offset (weightsAllocation outTensorConfig)))
    (blockWidth outTensorConfig)
    (blockHeight outTensorConfig)
    (strategy outTensorConfig).

Definition TryStripeShapes (sramAllocator : SramAllocator)
    (outTensorConfig : TensorConfig)
  : outcome (bool * SramAllocator * TensorConfig) :=
  (* Make sure that input is DMA-able. *)
  if negb (GetHeight inputStripe mod brickGroupHeight =? 0)
     || negb (GetWidth inputStripe mod brickGroupWidth =? 0)
  then Returns (false, sramAllocator, outTensorConfig)
  else if negb isHwio then AssertFails WeightsMustBeHwio
  else if activationCompression
          && negb (GetActivationCompressionVersion capabilities =? 1)
  then AssertFails CompressionNeedsVersion1
  (* Make sure that output is DMA-able. *)
  else if negb (GetHeight outputStripe mod brickGroupHeight =? 0)
          || negb (GetWidth outputStripe mod brickGroupWidth =? 0)
  then Returns (false, sramAllocator, outTensorConfig)
  else
    let '(currentSramAllocator, allocationResults) :=
      FitsInSram sramAllocator capabilities inputTile weightTile outputTile
        inputStaticAndOffset in
    if negb (m_Success allocationResults)
    then Returns (false, sramAllocator, outTensorConfig)
    else Returns (true, currentSramAllocator,
                  FillTensorConfigOffsets allocationResults
                    (writeStripesAndTiles outTensorConfig)).

End StripeShapes.

(** ** Lines 331-595: the traversal searches *)

(** The type of [TryStripeShapes]. The searches below are written over the
    resolver they call; the program's searches are their instances at
    [TryStripeShapes]. *)
Definition StripeResolver {E : Externals} : Type :=
  ResolverArgs -> SramAllocator -> TensorConfig ->
  outcome (bool * SramAllocator * TensorConfig).

(** The comparison given to [std::sort] (lines 356-359 and 520-523). *)
Definition blockConfigBefore (a b : BlockConfig) : bool :=
  (m_BlockWidth a >? m_BlockWidth b)
  || ((m_BlockWidth a =? m_BlockWidth b) && (m_BlockHeight a >=? m_BlockHeight b)).

Fixpoint insertBlockConfig (b : BlockConfig) (l : list BlockConfig) : list BlockConfig :=
  match l with
  | [] => [b]
  | x :: r => if blockConfigBefore b x then b :: l else x :: insertBlockConfig b r
  end.

(** The vector of block configs after the call of [std::sort] at lines
    355-359 (and 519-523), taken to be the allowed block configs rearranged
    in descending width, then descending height. That is an assumption on
    the call, not a consequence of the source: the comparison holds of a
    block config and itself ([>=] on the height), so it is not the strict
    weak ordering that [std::sort] requires, and the C++ standard leaves the
    call undefined; an implementation may run off the vector when it holds
    many equal block configs. No property below relies on the order of the
    result: they use that it has the elements and the length of the allowed
    block configs, or they run the searches on a single block config. *)
Definition sortBlockConfigs (l : list BlockConfig) : list BlockConfig :=
  fold_right insertBlockConfig [] l.

(** The values taken by the counter of the loop of lines 405-406. *)
Definition channelSplits (inputChannels : Z) : list Z :=
  map (fun k => 2 + Z.of_nat k) (seq 0 (Z.to_nat (inputChannels - 2))).

(** [struct Params] of lines 361-370. *)
Record Params := mkParams {
  params_blockHeight : Z;
  params_blockWidth : Z;
  params_inputStripeChannel : Z;
  params_outputStripeHeight : Z;
  params_outputStripeWidth : Z;
  params_outputStripeChannel : Z;
  params_activationCompression : bool
}.

(** [struct Params] of lines 525-533. *)
Record ParamsXY := mkParamsXY {
  xy_blockHeight : Z;
  xy_blockWidth : Z;
  xy_inputStripeChannel : Z;
  xy_outputStripeHeight : Z;
  xy_outputStripeWidth : Z;
  xy_outputStripeChannel : Z
}.

Definition setBlockAndStrategy (tensorConfig : TensorConfig) (w h : Z) : TensorConfig :=
  mkConfig (inputAllocation tensorConfig) (outputAllocation tensorConfig)
           (weightsAllocation tensorConfig) w h STRATEGY_X.

Section Searches.

Context {E : Externals}.

Definition Trial : Type := outcome (bool * SramAllocator * TensorConfig).

(** [if (t) return true;] followed by the rest of the function. *)
Definition orElse (t : Trial) (rest : SramAllocator -> TensorConfig -> Trial) : Trial :=
  match t with
  | AssertFails a => AssertFails a
  | Returns (true, sramAllocator, tensorConfig) =>
      Returns (true, sramAllocator, tensorConfig)
  | Returns (false, sramAllocator, tensorConfig) => rest sramAllocator tensorConfig
  end.

Definition giveUp (sramAllocator : SramAllocator) (tensorConfig : TensorConfig) : Trial :=
  Returns (false, sramAllocator, tensorConfig).

(** [for (auto params : paramsList) if (TryConf(params, ...)) return true;] *)
Fixpoint tryEach {P : Type} (TryConf : P -> SramAllocator -> TensorConfig -> Trial)
    (paramsList : list P) (rest : SramAllocator -> TensorConfig -> Trial)
    (sramAllocator : SramAllocator) (tensorConfig : TensorConfig) : Trial :=
  match paramsList with
  | [] => rest sramAllocator tensorConfig
  | params :: more =>
      orElse (TryConf params sramAllocator tensorConfig) (tryEach TryConf more rest)
  end.

Variable resolver : StripeResolver.

Variable mceOperation : MceOperation.
Variable upsampleType : UpsampleType.
Variable inputShape : TensorShape.
Variable outputShape : TensorShape.
Variable weightsFormat : DataFormat.
Variable weightsShape : TensorShape.
Variable pad : Z * Z.
Variable allowedBlockConfigs : list BlockConfig.
Variable capabilities : HardwareCapabilities.
Variable mceShapeMultiplier : ShapeMultiplier.
Variable pleShapeMultiplier : ShapeMultiplier.
Variable inputStaticAndOffset : bool * Z.
Variable depthMax : Z.

(** *** Channel-split traversal *)

(** Lines 372-381. *)
Definition activationCompressionOptions : list bool :=
  (if (GetActivationCompressionVersion capabilities =? 1)
      && negb (IsFullyConnected mceOperation)
   then [true] else [])
  ++ [false].

Definition weightsReloadingOrder : list WeightsReloadingOptions :=
  [NO_RELOADING; RELOADING_DOUBLE_BUFFERING; RELOADING_NO_DOUBLE_BUFFERING].

(** Lines 388-415. *)
Definition ZXY_paramsList : list Params :=
  flat_map (fun compression =>
    flat_map (fun currBlockConfig =>
      if negb (IsBlockConfigCompatible currBlockConfig capabilities mceOperation
                 upsampleType)
      then []
      else
        let currBlockWidth := m_BlockWidth currBlockConfig in
        let currBlockHeight := m_BlockHeight currBlockConfig in
        let outputStripeHeight := mulFraction currBlockHeight (m_H pleShapeMultiplier) in
        let outputStripeWidth := mulFraction currBlockWidth (m_W pleShapeMultiplier) in
        map (fun numInputChannelSplits =>
               let inputStripeChannel :=
                 GetChannels inputShape / numInputChannelSplits in
               let outputStripeChannel :=
                 mulFraction (GetNumberOfOfm capabilities) (m_C pleShapeMultiplier) in
               mkParams (m_BlockHeight currBlockConfig) (m_BlockWidth currBlockConfig)
                        inputStripeChannel outputStripeHeight outputStripeWidth
                        outputStripeChannel compression)
            (channelSplits (GetChannels inputShape)))
      (sortBlockConfigs allowedBlockConfigs))
    activationCompressionOptions.

(** Lines 422-442. *)
Definition ZXY_TryConf (params : Params) (allowInputBuffering avoidInputReloading : bool)
    (weightsReloading : WeightsReloadingOptions)
    (sramAllocator : SramAllocator) (tensorConfig : TensorConfig) : Trial :=
  if negb (negb avoidInputReloading || allowInputBuffering)
  then AssertFails AvoidReloadingNeedsBuffering
  else
    match
      resolver
        (mkArgs mceOperation
           (mkShape 1 (params_outputStripeHeight params)
                    (params_outputStripeWidth params)
                    (params_outputStripeChannel params))
           (params_inputStripeChannel params) inputShape outputShape weightsFormat
           weightsShape capabilities mceShapeMultiplier pleShapeMultiplier pad
           inputStaticAndOffset depthMax allowInputBuffering avoidInputReloading
           (params_activationCompression params) weightsReloading)
        sramAllocator tensorConfig
    with
    | AssertFails a => AssertFails a
    | Returns (true, sramAllocator', tensorConfig') =>
        (* Check that input stripe is partial depth. *)
        if GetChannels (stripeShape (inputAllocation tensorConfig'))
           <? GetChannels inputShape
        then Returns (true, sramAllocator',
                      setBlockAndStrategy tensorConfig'
                        (params_blockWidth params) (params_blockHeight params))
        else Returns (false, sramAllocator', tensorConfig')
    | Returns (false, sramAllocator', tensorConfig') =>
        Returns (false, sramAllocator', tensorConfig')
    end.

(** Lines 453-481, for the weights-reloading options still to try. *)
Fixpoint ZXY_tryReloadings (paramsList : list Params)
    (options : list WeightsReloadingOptions)
    (sramAllocator : SramAllocator) (tensorConfig : TensorConfig) : Trial :=
  match options with
  | [] => giveUp sramAllocator tensorConfig
  | tryWeightsReloading :: later =>
      (* a. Try all configurations using input buffering. *)
      tryEach (fun params => ZXY_TryConf params true true tryWeightsReloading) paramsList
        (* b. If here it means that it cannot avoid input reloading. *)
        (tryEach (fun params => ZXY_TryConf params true false tryWeightsReloading) paramsList
           (* c. If here it means that it cannot do input buffering. *)
           (tryEach (fun params => ZXY_TryConf params false false tryWeightsReloading)
              paramsList
              (ZXY_tryReloadings paramsList later)))
        sramAllocator tensorConfig
  end.

Definition TryInputZXYOutputXYZ_over (sramAllocator : SramAllocator)
    (tensorConfig : TensorConfig) : Trial :=
  if fst inputStaticAndOffset then Returns (false, sramAllocator, tensorConfig)
  else if (length ZXY_paramsList =? 0)%nat
  then Returns (false, sramAllocator, tensorConfig)
  else ZXY_tryReloadings ZXY_paramsList weightsReloadingOrder sramAllocator tensorConfig.

(** *** Whole-channel traversal *)

(** Lines 536-554. *)
Definition XY_paramsList : list ParamsXY :=
  flat_map (fun currBlockConfig =>
    if negb (IsBlockConfigCompatible currBlockConfig capabilities mceOperation
               upsampleType)
    then []
    else
      let currBlockWidth := m_BlockWidth currBlockConfig in
      let currBlockHeight := m_BlockHeight currBlockConfig in
      let outputStripeHeight := mulFraction currBlockHeight (m_H pleShapeMultiplier) in
      let outputStripeWidth := mulFraction currBlockWidth (m_W pleShapeMultiplier) in
      let inputStripeChannel := GetChannels inputShape in
      let outputStripeChannel :=
        mulFraction (GetNumberOfOfm capabilities) (m_C pleShapeMultiplier) in
      [mkParamsXY currBlockHeight (m_BlockWidth currBlockConfig) inputStripeChannel
                  outputStripeHeight outputStripeWidth outputStripeChannel])
    (sortBlockConfigs allowedBlockConfigs).

(** Lines 561-574; the last three arguments of the resolver are the
    defaults of its declaration. *)
Definition XY_TryConf (params : ParamsXY) (allowInputBuffering : bool)
    (sramAllocator : SramAllocator) (tensorConfig : TensorConfig) : Trial :=
  match
    resolver
      (mkArgs mceOperation
         (mkShape 1 (xy_outputStripeHeight params) (xy_outputStripeWidth params)
                  (xy_outputStripeChannel params))
         (xy_inputStripeChannel params) inputShape outputShape weightsFormat
         weightsShape capabilities mceShapeMultiplier pleShapeMultiplier pad
         inputStaticAndOffset depthMax allowInputBuffering false false NO_RELOADING)
      sramAllocator tensorConfig
  with
  | AssertFails a => AssertFails a
  | Returns (true, sramAllocator', tensorConfig') =>
      Returns (true, sramAllocator',
               setBlockAndStrategy tensorConfig'
                 (xy_blockWidth params) (xy_blockHeight params))
  | Returns (false, sramAllocator', tensorConfig') =>
      Returns (false, sramAllocator', tensorConfig')
  end.

Definition TryInputXYOutputXYZ_over (sramAllocator : SramAllocator)
    (tensorConfig : TensorConfig) : Trial :=
  if fst inputStaticAndOffset then Returns (false, sramAllocator, tensorConfig)
  else
    let isFullyConnected := MceOperation_eqb mceOperation FULLY_CONNECTED in
    if negb isFullyConnected then Returns (false, sramAllocator, tensorConfig)
    else if (length XY_paramsList =? 0)%nat
    then Returns (false, sramAllocator, tensorConfig)
    else
      (* Try all configurations using input buffering. *)
      tryEach (fun params => XY_TryConf params true) XY_paramsList
        (* If here it means that it cannot do input buffering. *)
        (tryEach (fun params => XY_TryConf params false) XY_paramsList giveUp)
        sramAllocator tensorConfig.

(** Lines 628-659. *)
Definition TryStrategyX_over (sramAllocator : SramAllocator)
    (tensorConfig : TensorConfig) : Trial :=
  orElse (TryInputXYOutputXYZ_over sramAllocator tensorConfig)
         (fun sramAllocator' tensorConfig' =>
            orElse (TryInputZXYOutputXYZ_over sramAllocator' tensorConfig') giveUp).

End Searches.

(** The searches of the program. *)
Definition TryInputZXYOutputXYZ {E : Externals} :=
  TryInputZXYOutputXYZ_over TryStripeShapes.
Definition TryInputXYOutputXYZ {E : Externals} :=
  TryInputXYOutputXYZ_over TryStripeShapes.
Definition TryStrategyX {E : Externals} :=
  TryStrategyX_over TryStripeShapes.

(** ** Lines 597-626: eligibility *)

(** Modelled from the spec: the strategy classes behind [IStrategy*], which
    are declared in headers that are not part of this file's source, as the
    closed set of tags that [dynamic_cast] tells apart. *)
Inductive IStrategy :=
  | Strategy0 | Strategy1 | Strategy3 | Strategy4 | Strategy6 | Strategy7
  | StrategyX | StrategyFc.

Definition IStrategy_eqb (a b : IStrategy) : bool :=
  match a, b with
  | Strategy0, Strategy0 | Strategy1, Strategy1 | Strategy3, Strategy3
  | Strategy4, Strategy4 | Strategy6, Strategy6 | Strategy7, Strategy7
  | StrategyX, StrategyX | StrategyFc, StrategyFc => true
  | _, _ => false
  end.

Definition IsStrategyAllowed (T : IStrategy) (strategies : list IStrategy) : bool :=
  existsb (fun s => IStrategy_eqb s T) strategies.

Definition IsStrategyX (mceOperation : MceOperation) (tensorConfig : TensorConfig)
    (algorithm : CompilerMceAlgorithm) (allowedStrategies : list IStrategy) : bool :=
  let isSupportedMceOperation :=
    MceOperation_eqb mceOperation CONVOLUTION
    || MceOperation_eqb mceOperation FULLY_CONNECTED in
  let isSupportedAlgorithm :=
    match algorithm with Direct => true | _ => false end in
  let isSupportedStrategy :=
    Strategy_eqb (strategy tensorConfig) STRATEGY_7
    || Strategy_eqb (strategy tensorConfig) STRATEGY_FC
    || Strategy_eqb (strategy tensorConfig) NONE in
  let isAllowedStrategy :=
    IsStrategyAllowed Strategy7 allowedStrategies
    || IsStrategyAllowed StrategyFc allowedStrategies in
  isSupportedMceOperation && isSupportedAlgorithm && isSupportedStrategy
  && isAllowedStrategy.

(** ** A reference platform for the examples

    The examples below run the search on a concrete platform. *)

(** Modelled from the spec: the scratch-memory allocator (SramAllocator.hpp)
    as a bump allocator over a fixed budget: [sramUsed] bytes are taken out
    of [sramBudget]. *)
Record BumpAllocator := mkBump { sramUsed : Z; sramBudget : Z }.

(** Modelled from the spec: [FitsInSram] of StrategiesCommon.hpp. It
    attempts to place the input, weight and output tiles inside the memory
    budget and returns the chosen byte offsets or failure; an input that is
    already resident keeps the offset the caller fixed. *)
Definition bumpFitsInSram (a : BumpAllocator) (capabilities : HardwareCapabilities)
    (input weight output : Z) (inputStaticAndOffset : bool * Z)
  : BumpAllocator * AllocationResult :=
  let inputOffset :=
    if fst inputStaticAndOffset then snd inputStaticAndOffset else sramUsed a in
  let weightOffset :=
    if fst inputStaticAndOffset then sramUsed a else sramUsed a + input in
  let outputOffset := weightOffset + weight in
  let finish := outputOffset + output in
  if finish <=? sramBudget a
  then (mkBump finish (sramBudget a),
        mkResult true inputOffset weightOffset outputOffset)
  else (a, mkResult false 0 0 0).

(** Modelled from the spec: [GetBoundaryRequirements] of Utils.hpp. Extra
    rows are kept before the stripe when there is padding before it, and
    after the stripe when the output stripe and the kernel reach past the
    input stripe. *)
Definition refBoundaryRequirements
    (padBefore ifmShape ifmStripeShape ofmStripeShape weightSize : Z) : NeedBoundary :=
  mkNeed (padBefore >? 0)
         (sub32 (sub32 (add32 ofmStripeShape weightSize) padBefore) 1 >? ifmStripeShape).

(** Modelled from the spec: [AccountForFullDimension] of Utils.hpp. An
    output stripe that covers the whole output takes the whole input;
    otherwise the input stripe is the output stripe scaled back through the
    multiplier. *)
Definition refAccountForFullDimension
    (outputTensorDim inputTensorDim outputStripeDim : Z) (multiplier : Fraction) : Z :=
  if outputStripeDim >=? outputTensorDim then inputTensorDim
  else divFraction outputStripeDim multiplier.

(** Modelled from the spec: [EstimateWeightSizeBytes] of Utils.hpp, one byte
    per weight, with the channel dimensions rounded to the hardware lanes. *)
Definition refEstimateWeightSizeBytes (shape : TensorShape)
    (capabilities : HardwareCapabilities) (isHwim : bool) : Z :=
  let numOfms :=
    if isHwim then mul32 (dim2 shape) (dim3 shape) else dim3 shape in
  let numIfms := if isHwim then 1 else dim2 shape in
  mul32 (mul32 (mul32 (dim0 shape) (dim1 shape)) numIfms)
        (RoundUpToNearestMultiple numOfms (GetNumberOfOfm capabilities)).

Definition refPlatform : Externals := {|
  SramAllocator := BumpAllocator;
  FitsInSram := bumpFitsInSram;
  EstimateWeightSizeBytes := refEstimateWeightSizeBytes;
  GetBoundaryRequirements := refBoundaryRequirements;
  AccountForFullDimension := refAccountForFullDimension;
  g_WeightsChannelVecProd := 1024
|}.

(** A 16-lane machine with 8x8x16 brick groups; [version] is its
    activation-compression version. *)
Definition refCapabilities (version : Z) : HardwareCapabilities :=
  mkCaps (mkShape 1 8 8 16) 16 16 512 version.

Definition unitFraction : Fraction := mkFraction 1 1.
Definition unitMultiplier : ShapeMultiplier :=
  mkMultiplier unitFraction unitFraction unitFraction.

Definition emptyAllocation : SramAllocation := mkAllocation (mkShape 0 0 0 0) 0 0.
Definition emptyConfig : TensorConfig :=
  mkConfig emptyAllocation emptyAllocation emptyAllocation 0 0 NONE.

(** A 1x1 convolution over an 8x8 image with [channels] input channels and
    16 output channels, as the searches receive it on the reference
    platform: one 8x8 block config, no padding, no shape scaling, input not
    fixed, no depth cap, [budget] bytes of scratch memory, empty
    configuration. *)
Definition convSearch (search : MceOperation -> UpsampleType -> TensorShape ->
                                TensorShape -> DataFormat -> TensorShape -> Z * Z ->
                                list BlockConfig -> HardwareCapabilities ->
                                ShapeMultiplier -> ShapeMultiplier -> bool * Z -> Z ->
                                BumpAllocator -> TensorConfig ->
                                outcome (bool * BumpAllocator * TensorConfig))
    (channels budget : Z) :=
  search CONVOLUTION OFF (mkShape 1 8 8 channels) (mkShape 1 8 8 16) HWIO
    (mkShape 1 1 channels 16) (0, 0) [mkBlock 8 8] (refCapabilities 0)
    unitMultiplier unitMultiplier (false, 0) (2 ^ 32 - 1)
    (mkBump 0 budget) emptyConfig.

(** A resolver call on the same kind of convolution: 17 of 33 input
    channels are requested, with input buffering. *)
Definition bufferedArgs : ResolverArgs :=
  mkArgs CONVOLUTION (mkShape 1 8 8 16) 17 (mkShape 1 8 8 33) (mkShape 1 8 8 16)
         HWIO (mkShape 1 1 33 16) (refCapabilities 0) unitMultiplier unitMultiplier
         (0, 0) (false, 0) (2 ^ 32 - 1) true false false NO_RELOADING.

(** A resolver call whose output stripe is capped: the image is two input
    stripes tall, 48 of 64 output channels are requested, and the caller's
    depth maximum is 40. *)
Definition cappedArgs : ResolverArgs :=
  mkArgs CONVOLUTION (mkShape 1 8 8 48) 16 (mkShape 1 16 8 16) (mkShape 1 16 8 64)
         HWIO (mkShape 1 1 16 64) (refCapabilities 0) unitMultiplier unitMultiplier
         (0, 0) (false, 0) 40 false false false NO_RELOADING.

(** The same call with a depth maximum of 32, a multiple of the 16 lanes. *)
Definition laneCappedArgs : ResolverArgs :=
  mkArgs CONVOLUTION (mkShape 1 8 8 48) 16 (mkShape 1 16 8 16) (mkShape 1 16 8 64)
         HWIO (mkShape 1 1 16 64) (refCapabilities 0) unitMultiplier unitMultiplier
         (0, 0) (false, 0) 32 false false false NO_RELOADING.

(** A hardware description with 32 SRAM lanes and the same brick group of 16
    channels, and a resolver call on it: 40 of 100 input channels are
    requested. *)
Definition wideLaneCapabilities : HardwareCapabilities :=
  mkCaps (mkShape 1 8 8 16) 32 32 512 0.

Definition wideLaneArgs : ResolverArgs :=
  mkArgs CONVOLUTION (mkShape 1 8 8 32) 40 (mkShape 1 8 8 100) (mkShape 1 8 8 32)
         HWIO (mkShape 1 1 100 32) wideLaneCapabilities unitMultiplier unitMultiplier
         (0, 0) (false, 0) (2 ^ 32 - 1) false false false NO_RELOADING.

(** A fully connected resolver call: 1x1x64 input, 16 outputs. *)
Definition fullyConnectedArgs (weightsReloading : WeightsReloadingOptions)
  : ResolverArgs :=
  mkArgs FULLY_CONNECTED (mkShape 1 8 8 16) 64 (mkShape 1 1 1 64) (mkShape 1 1 1 16)
         HWIO (mkShape 1 1 64 16) (refCapabilities 0) unitMultiplier unitMultiplier
         (0, 0) (false, 0) (2 ^ 32 - 1) true false false weightsReloading.

(** Rounding [num] up to the granule [lanes] or to the granule [bricks]
    yields a multiple of [lanes] without leaving 32 bits: both granules are
    positive, [lanes] divides [bricks], and the rounded value fits. *)
Definition RoundsToLanes (num lanes bricks : Z) : Prop :=
  0 < lanes /\ 0 < bricks /\ bricks mod lanes = 0
  /\ 0 <= num /\ num + bricks <= 2 ^ 32.



(** The reasons for which [TryStripeShapes] returns failure. *)
Definition rejectionCause {E : Externals} (args : ResolverArgs) (s : SramAllocator)
  : Prop :=
  GetHeight (inputStripe args) mod brickGroupHeight args <> 0
  \/ GetWidth (inputStripe args) mod brickGroupWidth args <> 0
  \/ GetHeight (outputStripe args) mod brickGroupHeight args <> 0
  \/ GetWidth (outputStripe args) mod brickGroupWidth args <> 0
  \/ m_Success (snd (FitsInSram s (arg_capabilities args) (inputTile args)
                        (weightTile args) (outputTile args)
                        (arg_inputStaticAndOffset args))) = false.

(** ** More runs on the reference platform *)

(** The same 1x1 convolution as [convSearch], with the operator's upsampling
    mode, the weight layout, the allowed block configs and the fixed-input
    pair left open. *)
Definition convSearchWith (search : MceOperation -> UpsampleType -> TensorShape ->
                                    TensorShape -> DataFormat -> TensorShape -> Z * Z ->
                                    list BlockConfig -> HardwareCapabilities ->
                                    ShapeMultiplier -> ShapeMultiplier -> bool * Z ->
                                    Z -> BumpAllocator -> TensorConfig ->
                                    outcome (bool * BumpAllocator * TensorConfig))
    (upsampleType : UpsampleType) (weightsFormat : DataFormat)
    (allowedBlockConfigs : list BlockConfig) (inputStaticAndOffset : bool * Z)
    (channels budget : Z) :=
  search CONVOLUTION upsampleType (mkShape 1 8 8 channels) (mkShape 1 8 8 16)
    weightsFormat (mkShape 1 1 channels 16) (0, 0) allowedBlockConfigs
    (refCapabilities 0) unitMultiplier unitMultiplier inputStaticAndOffset
    (2 ^ 32 - 1) (mkBump 0 budget) emptyConfig.

(** A fully connected operator with 64 inputs and 16 outputs, HWIO weights
    and one 8x8 block config. *)
Definition fullyConnectedSearch
    (search : MceOperation -> UpsampleType -> TensorShape ->
              TensorShape -> DataFormat -> TensorShape -> Z * Z ->
              list BlockConfig -> HardwareCapabilities ->
              ShapeMultiplier -> ShapeMultiplier -> bool * Z ->
              Z -> BumpAllocator -> TensorConfig ->
              outcome (bool * BumpAllocator * TensorConfig))
    (upsampleType : UpsampleType) (budget : Z) :=
  search FULLY_CONNECTED upsampleType (mkShape 1 1 1 64) (mkShape 1 1 1 16)
    HWIO (mkShape 1 1 64 16) (0, 0) [mkBlock 8 8]
    (refCapabilities 0) unitMultiplier unitMultiplier (false, 0)
    (2 ^ 32 - 1) (mkBump 0 budget) emptyConfig.

(** ** Statements about the calls a search makes *)

(** The resolver with the check of line 260 made at the call. *)
Definition guardCompression {E : Externals} (resolver : StripeResolver)
  : StripeResolver :=
  fun args s c =>
    if arg_activationCompression args
       && negb (GetActivationCompressionVersion (arg_capabilities args) =? 1)
    then AssertFails CompressionNeedsVersion1
    else resolver args s c.

(** ** The order of trials, as the specification words it

    For every weights-reloading mode, in the order no-reload,
    double-buffer-reload, single-reload: (a) all candidates with input double
    buffering and reload avoidance, (b) all candidates with double buffering
    but without reload avoidance, (c) all candidates with no input buffering
    at all. *)

Record TrialSpec := mkTrial {
  trial_params : Params;
  trial_allowInputBuffering : bool;
  trial_avoidInputReloading : bool;
  trial_weightsReloading : WeightsReloadingOptions
}.

Definition trialOrder (candidates : list Params) : list TrialSpec :=
  flat_map (fun mode =>
              map (fun p => mkTrial p true true mode) candidates
              ++ map (fun p => mkTrial p true false mode) candidates
              ++ map (fun p => mkTrial p false false mode) candidates)
           [NO_RELOADING; RELOADING_DOUBLE_BUFFERING; RELOADING_NO_DOUBLE_BUFFERING].


(** ** The stride size of a search

    [strideSize] (lines 155-157) reads the input shape, the weights shape and
    the capabilities only, so it is the same for every call of one search;
    [channelStride] is that value. *)
Definition channelStride (inputShape weightsShape : TensorShape)
    (capabilities : HardwareCapabilities) : Z :=
  strideSize
    (mkArgs CONVOLUTION (mkShape 1 0 0 0) 0 inputShape (mkShape 1 0 0 0) HWIO
            weightsShape capabilities unitMultiplier unitMultiplier (0, 0) (false, 0)
            0 false false false NO_RELOADING).

(** The same resolver call with another weights-reloading mode. *)
Definition withWeightsReloading (args : ResolverArgs)
    (weightsReloading : WeightsReloadingOptions) : ResolverArgs :=
  mkArgs (arg_mceOperation args) (arg_requestedOutputStripe args)
         (arg_requestedInputChannels args) (arg_inputShape args)
         (arg_outputShape args) (arg_weightsFormat args) (arg_weightsShape args)
         (arg_capabilities args) (arg_mceShapeMultiplier args)
         (arg_pleShapeMultiplier args) (arg_pad args)
         (arg_inputStaticAndOffset args) (arg_depthMax args)
         (arg_allowInputBuffering args) (arg_avoidInputReloading args)
         (arg_activationCompression args) weightsReloading.

(** * Properties *)

(** ** The block-config filter *)

Lemma MceOperation_eqb_eq (a b : MceOperation) :
  MceOperation_eqb a b = true <-> a = b.
Proof. destruct a, b; simpl; split; congruence. Qed.

Lemma UpsampleType_eqb_eq (a b : UpsampleType) :
  UpsampleType_eqb a b = true <-> a = b.
Proof. destruct a, b; simpl; split; congruence. Qed.

Lemma IsUpsampling_true (u : UpsampleType) : IsUpsampling u = true <-> u <> OFF.
Proof. destruct u; unfold IsUpsampling; simpl; split; congruence. Qed.

Lemma IsFullyConnected_true (op : MceOperation) :
  IsFullyConnected op = true <-> op = FULLY_CONNECTED.
Proof. apply MceOperation_eqb_eq. Qed.

Lemma not_both_eqb (x y a b : Z) :
  negb (x =? a) || negb (y =? b) = true <-> ~ (x = a /\ y = b).
Proof.
  destruct (Z.eqb_spec x a), (Z.eqb_spec y b); simpl; split; intros; try tauto;
    try discriminate.
Qed.

(** The three tests of lines 51-71, with the element count written out as
    the product of width and height reduced to 32 bits (line 49). *)
Lemma IsBlockConfigCompatible_false_iff
    (blockConfig : BlockConfig) (capabilities : HardwareCapabilities)
    (mceOperation : MceOperation) (upsampleType : UpsampleType) :
  let w := m_BlockWidth blockConfig in
  let h := m_BlockHeight blockConfig in
  IsBlockConfigCompatible blockConfig capabilities mceOperation upsampleType = false
  <-> ((w * h) mod 2 ^ 32 > GetTotalAccumulatorsPerEngine capabilities
       \/ (mceOperation = FULLY_CONNECTED /\ ~ (w = 8 /\ h = 8))
       \/ (upsampleType <> OFF /\ ~ (w = 16 /\ h = 16))).
Proof.
  intros w h. unfold IsBlockConfigCompatible. fold w h.
  change (mul32 w h) with ((w * h) mod 2 ^ 32).
  pose proof (IsFullyConnected_true mceOperation) as Hfc.
  pose proof (IsUpsampling_true upsampleType) as Hup.
  pose proof (not_both_eqb w h 8 8) as H8.
  pose proof (not_both_eqb w h 16 16) as H16.
  destruct (Z.gtb_spec ((w * h) mod 2 ^ 32)
              (GetTotalAccumulatorsPerEngine capabilities)).
  - split; intros; [left; lia | reflexivity].
  - destruct (IsFullyConnected mceOperation), (IsUpsampling upsampleType);
      destruct (negb (w =? 8) || negb (h =? 8));
      destruct (negb (w =? 16) || negb (h =? 16)); simpl;
      split; intros; try reflexivity; try discriminate; try tauto;
      match goal with
      | H : _ \/ _ |- _ => exfalso; destruct H as [? | [[? ?] | [? ?]]]; try lia;
                           intuition congruence
      end.
Qed.

(** C6, as the code has it. [IsBlockConfigCompatible] returns false exactly
    when the block's width times height, reduced modulo 2^32 as the 32-bit
    product of line 49 is, exceeds the accumulator count per engine, or the
    operator is fully connected and the block is not 8x8, or upsampling is on
    and the block is not 16x16; in every other case it returns true. For a
    block whose width times height fits 32 bits the reduction does nothing
    and the first condition is that width times height exceeds the
    accumulator count. The result is a function of the four arguments
    only. *)
Theorem IsBlockConfigCompatible_rejects_exactly
    (blockConfig : BlockConfig) (capabilities : HardwareCapabilities)
    (mceOperation : MceOperation) (upsampleType : UpsampleType) :
  let w := m_BlockWidth blockConfig in
  let h := m_BlockHeight blockConfig in
  let accumulators := GetTotalAccumulatorsPerEngine capabilities in
  (IsBlockConfigCompatible blockConfig capabilities mceOperation upsampleType = false
   <-> ((w * h) mod 2 ^ 32 > accumulators
        \/ (mceOperation = FULLY_CONNECTED /\ ~ (w = 8 /\ h = 8))
        \/ (upsampleType <> OFF /\ ~ (w = 16 /\ h = 16))))
  /\ (IsBlockConfigCompatible blockConfig capabilities mceOperation upsampleType = true
      <-> ~ ((w * h) mod 2 ^ 32 > accumulators
             \/ (mceOperation = FULLY_CONNECTED /\ ~ (w = 8 /\ h = 8))
             \/ (upsampleType <> OFF /\ ~ (w = 16 /\ h = 16))))
  /\ (0 <= w * h < 2 ^ 32 ->
      (IsBlockConfigCompatible blockConfig capabilities mceOperation upsampleType
       = false
       <-> (w * h > accumulators
            \/ (mceOperation = FULLY_CONNECTED /\ ~ (w = 8 /\ h = 8))
            \/ (upsampleType <> OFF /\ ~ (w = 16 /\ h = 16))))).
Proof.
  intros w h accumulators.
  pose proof (IsBlockConfigCompatible_false_iff blockConfig capabilities
                mceOperation upsampleType) as Hfalse.
  cbv zeta in Hfalse. fold w h accumulators in Hfalse.
  split; [exact Hfalse |]. split.
  - destruct (IsBlockConfigCompatible blockConfig capabilities mceOperation
                upsampleType).
    + split; [intros _ Hn; apply Hfalse in Hn; discriminate | reflexivity].
    + split; [discriminate | intros Hn; exfalso; apply Hn, Hfalse; reflexivity].
  - intros Hfit. rewrite Hfalse. rewrite (Z.mod_small (w * h)) by exact Hfit.
    reflexivity.
Qed.

(** When the product of width and height fits 32 bits, the element count is
    the product itself. *)
Lemma block_elements_exact (w h : Z) :
  0 <= w -> 0 <= h -> w * h < 2 ^ 32 -> mul32 w h = w * h.
Proof.
  intros. unfold mul32, wrap32. apply Z.mod_small. nia.
Qed.

(** ** The searches, for any resolver *)

Section SearchLemmas.

Context {E : Externals}.

Lemma orElse_true (t : Trial) rest s c :
  orElse t rest = Returns (true, s, c) ->
  t = Returns (true, s, c)
  \/ exists s0 c0, t = Returns (false, s0, c0) /\ rest s0 c0 = Returns (true, s, c).
Proof.
  destruct t as [a | [[[] s0] c0]]; simpl; intros H; try discriminate.
  - left; exact H.
  - right; eauto.
Qed.

Lemma orElse_assert (t : Trial) rest a :
  orElse t rest = AssertFails a ->
  t = AssertFails a
  \/ exists s0 c0, t = Returns (false, s0, c0) /\ rest s0 c0 = AssertFails a.
Proof.
  destruct t as [a' | [[[] s0] c0]]; simpl; intros H; try discriminate.
  - left; exact H.
  - right; eauto.
Qed.

(** A search that returns success returns what one of its trials, or what
    follows them, returned. *)
Lemma tryEach_true_inv {P : Type} (TryConf : P -> SramAllocator -> TensorConfig -> Trial)
    (Q : SramAllocator -> TensorConfig -> Prop) rest :
  (forall p s c s' c', TryConf p s c = Returns (true, s', c') -> Q s' c') ->
  (forall s c s' c', rest s c = Returns (true, s', c') -> Q s' c') ->
  forall l s c s' c',
    tryEach TryConf l rest s c = Returns (true, s', c') -> Q s' c'.
Proof.
  intros HT HR l; induction l as [| p l IH]; simpl; intros s c s' c' H.
  - eapply HR; eauto.
  - apply orElse_true in H. destruct H as [H | (s0 & c0 & _ & H)].
    + eapply HT; eauto.
    + eapply IH; eauto.
Qed.

(** A search raises an assertion only if one of its trials, or what
    follows them, does. *)
Lemma tryEach_assert_inv {P : Type} (TryConf : P -> SramAllocator -> TensorConfig -> Trial)
    (a : Assertion) rest l :
  (forall p, In p l -> forall s c, TryConf p s c <> AssertFails a) ->
  (forall s c, rest s c <> AssertFails a) ->
  forall s c, tryEach TryConf l rest s c <> AssertFails a.
Proof.
  intros HT HR; induction l as [| p l IH]; simpl; intros s c H.
  - eapply HR; eauto.
  - apply orElse_assert in H. destruct H as [H | (s0 & c0 & _ & H)].
    + eapply (HT p); [left; reflexivity | exact H].
    + eapply IH; [intros q Hq; apply HT; right; exact Hq | exact H].
Qed.

Lemma giveUp_not_true s c s' c' : giveUp s c <> Returns (true, s', c').
Proof. unfold giveUp; intros H; inversion H. Qed.

Lemma giveUp_not_assert s c a : giveUp s c <> AssertFails a.
Proof. unfold giveUp; intros H; inversion H. Qed.

Lemma channelSplits_nil (n : Z) : channelSplits n = [] <-> n <= 2.
Proof.
  unfold channelSplits. split; intros H.
  - destruct (Z.to_nat (n - 2)) eqn:Hn; [lia | discriminate].
  - replace (Z.to_nat (n - 2)) with 0%nat by lia. reflexivity.
Qed.

Lemma channelSplits_range (n k : Z) : In k (channelSplits n) <-> 2 <= k < n.
Proof.
  unfold channelSplits. rewrite in_map_iff. split.
  - intros (i & <- & Hi). apply in_seq in Hi. lia.
  - intros Hk. exists (Z.to_nat (k - 2)). split; [lia |]. apply in_seq. lia.
Qed.

Lemma flat_map_nil {A B : Type} (f : A -> list B) (l : list A) :
  (forall x, In x l -> f x = []) -> flat_map f l = [].
Proof.
  induction l as [| x l IH]; simpl; intros H; [reflexivity |].
  rewrite (H x) by (left; reflexivity). simpl. apply IH.
  intros y Hy. apply H. right; exact Hy.
Qed.

Lemma orElse_ext (t : Trial) r1 r2 :
  (forall s c, r1 s c = r2 s c) -> orElse t r1 = orElse t r2.
Proof.
  intros H. destruct t as [a | [[[] s] c]]; simpl; auto.
Qed.

(** Two searches that agree trial by trial agree. *)
Lemma tryEach_ext {P : Type} (T1 T2 : P -> SramAllocator -> TensorConfig -> Trial)
    r1 r2 l :
  (forall p, In p l -> forall s c, T1 p s c = T2 p s c) ->
  (forall s c, r1 s c = r2 s c) ->
  forall s c, tryEach T1 l r1 s c = tryEach T2 l r2 s c.
Proof.
  intros HT HR. induction l as [| p l IH]; simpl; intros s c; [apply HR |].
  rewrite (HT p) by (left; reflexivity).
  apply orElse_ext. apply IH. intros q Hq. apply HT. right; exact Hq.
Qed.



(** When every trial either succeeds or fails without touching the state,
    and one of them succeeds, the search returns what the first successful
    trial returns from the initial state. *)
Lemma tryEach_first_success {P : Type}
    (T : P -> SramAllocator -> TensorConfig -> Trial) l s c :
  (forall q, In q l ->
             T q s c = Returns (false, s, c)
             \/ exists s' c', T q s c = Returns (true, s', c')) ->
  (exists p s1 c1, In p l /\ T p s c = Returns (true, s1, c1)) ->
  exists q s' c',
    In q l /\ T q s c = Returns (true, s', c')
    /\ forall rest, tryEach T l rest s c = Returns (true, s', c').
Proof.
  induction l as [| q l IH]; intros Hall (p & s1 & c1 & Hp & Hrun).
  - contradiction.
  - destruct (Hall q (or_introl eq_refl)) as [Hq | (s' & c' & Hq)].
    + destruct Hp as [-> | Hp]; [congruence |].
      destruct IH as (q' & s' & c' & Hin & Hq' & Hres).
      * intros x Hx. apply Hall. right; exact Hx.
      * exists p, s1, c1. auto.
      * exists q', s', c'. split; [right; exact Hin |]. split; [exact Hq' |].
        intros rest. simpl. rewrite Hq. simpl. apply Hres.
    + exists q, s', c'. split; [left; reflexivity |]. split; [exact Hq |].
      intros rest. simpl. rewrite Hq. reflexivity.
Qed.





End SearchLemmas.


(** ** The stripe-shape resolver *)

Section ResolverProperties.

Context {E : Externals}.
Variable args : ResolverArgs.

(** What [TryStripeShapes] has established when it returns: on failure a
    cause of rejection and nothing else, and on success every check of its
    body together with the allocation it committed. *)
Lemma TryStripeShapes_returns s c b s' c' :
  TryStripeShapes args s c = Returns (b, s', c') ->
  (b = false /\ s' = s /\ c' = c /\ rejectionCause args s)
  \/ (b = true
      /\ GetHeight (inputStripe args) mod brickGroupHeight args = 0
      /\ GetWidth (inputStripe args) mod brickGroupWidth args = 0
      /\ isHwio args = true
      /\ (arg_activationCompression args = true ->
          GetActivationCompressionVersion (arg_capabilities args) = 1)
      /\ GetHeight (outputStripe args) mod brickGroupHeight args = 0
      /\ GetWidth (outputStripe args) mod brickGroupWidth args = 0
      /\ exists res,
           FitsInSram s (arg_capabilities args) (inputTile args) (weightTile args)
             (outputTile args) (arg_inputStaticAndOffset args) = (s', res)
           /\ m_Success res = true
           /\ c' = FillTensorConfigOffsets res (writeStripesAndTiles args c)).
Proof.
  unfold TryStripeShapes, rejectionCause.
  destruct (negb (GetHeight (inputStripe args) mod brickGroupHeight args =? 0)
            || negb (GetWidth (inputStripe args) mod brickGroupWidth args =? 0))
    eqn:Hin.
  { intros H; inversion H; subst. left. repeat (split; [reflexivity |]).
    apply orb_prop in Hin.
    destruct Hin as [Hin | Hin]; apply negb_true_iff, Z.eqb_neq in Hin; auto. }
  destruct (isHwio args) eqn:Hhwio; cbn [negb]; [| discriminate].
  destruct (arg_activationCompression args
            && negb (GetActivationCompressionVersion (arg_capabilities args) =? 1))
    eqn:Hver; [discriminate |].
  destruct (negb (GetHeight (outputStripe args) mod brickGroupHeight args =? 0)
            || negb (GetWidth (outputStripe args) mod brickGroupWidth args =? 0))
    eqn:Hout.
  { intros H; inversion H; subst. left. repeat (split; [reflexivity |]).
    apply orb_prop in Hout.
    destruct Hout as [Hout | Hout]; apply negb_true_iff, Z.eqb_neq in Hout; auto. }
  destruct (FitsInSram s (arg_capabilities args) (inputTile args) (weightTile args)
              (outputTile args) (arg_inputStaticAndOffset args)) as [s1 res] eqn:Hfit.
  destruct (m_Success res) eqn:Hok; cbn [negb]; intros H; inversion H; subst.
  2: { left. repeat (split; [reflexivity |]). cbn [snd]. auto 6. }
  right.
  apply orb_false_elim in Hin. destruct Hin as [Hih Hiw].
  apply orb_false_elim in Hout. destruct Hout as [Hoh How].
  apply negb_false_iff, Z.eqb_eq in Hih, Hiw, Hoh, How.
  repeat (split; [assumption || reflexivity |]).
  split.
  - intros Hc. rewrite Hc in Hver. cbn [andb] in Hver.
    apply negb_false_iff, Z.eqb_eq in Hver. exact Hver.
  - repeat (split; [assumption |]). exists res. auto.
Qed.

(** The only assertion about the compression version is the one guarded by
    the [activationCompression] argument. *)
Lemma TryStripeShapes_compression_assert s c :
  TryStripeShapes args s c = AssertFails CompressionNeedsVersion1 ->
  arg_activationCompression args = true
  /\ GetActivationCompressionVersion (arg_capabilities args) <> 1.
Proof.
  unfold TryStripeShapes.
  destruct (negb _ || negb _); [discriminate |].
  destruct (negb (isHwio args)); [discriminate |].
  destruct (arg_activationCompression args) eqn:Hc; simpl.
  - destruct (Z.eqb_spec (GetActivationCompressionVersion (arg_capabilities args)) 1);
      simpl; [| auto].
    destruct (negb _ || negb _); [discriminate |].
    destruct (FitsInSram _ _ _ _ _ _) as [s1 res]. destruct (negb _); discriminate.
  - destruct (negb _ || negb _); [discriminate |].
    destruct (FitsInSram _ _ _ _ _ _) as [s1 res]. destruct (negb _); discriminate.
Qed.

(** C2. Whenever [TryStripeShapes] returns failure (the input stripe or the
    output stripe is not aligned to the brick group, or the allocation does
    not fit), the allocator and the configuration it was given are returned
    unchanged;
    whenever it returns success, the configuration holds the three stripe
    shapes, the three tile sizes and the three offsets of the allocation, its
    other fields are untouched, and the allocator is the one that the
    allocation on the private copy produced. *)
Theorem TryStripeShapes_commits_or_leaves_untouched s c b s' c' :
  TryStripeShapes args s c = Returns (b, s', c') ->
  (b = false -> s' = s /\ c' = c /\ rejectionCause args s)
  /\ (b = true ->
      exists res,
        FitsInSram s (arg_capabilities args) (inputTile args) (weightTile args)
          (outputTile args) (arg_inputStaticAndOffset args) = (s', res)
        /\ m_Success res = true
        /\ inputAllocation c'
           = mkAllocation (inputStripe args) (inputTile args) (m_InputOffset res)
        /\ outputAllocation c'
           = mkAllocation (outputStripe args) (outputTile args) (m_OutputOffset res)
        /\ weightsAllocation c'
           = mkAllocation (weightStripe args) (weightTile args) (m_WeightOffset res)
        /\ blockWidth c' = blockWidth c
        /\ blockHeight c' = blockHeight c
        /\ strategy c' = strategy c).
Proof.
  intros H. apply TryStripeShapes_returns in H.
  destruct H as [(-> & -> & -> & Hcause)
                 | (-> & _ & _ & _ & _ & _ & _ & res & Hfit & Hok & ->)].
  - split; [auto | discriminate].
  - split; [discriminate | intros _].
    exists res. repeat (split; [assumption || reflexivity |]). reflexivity.
Qed.

(** *** What an accepted configuration holds *)

Lemma accepted_allocations s c s' c' :
  TryStripeShapes args s c = Returns (true, s', c') ->
  stripeShape (inputAllocation c') = inputStripe args
  /\ stripeShape (outputAllocation c') = outputStripe args
  /\ stripeShape (weightsAllocation c') = weightStripe args
  /\ tileSize (inputAllocation c') = inputTile args
  /\ tileSize (outputAllocation c') = outputTile args
  /\ tileSize (weightsAllocation c') = weightTile args.
Proof.
  intros H. apply TryStripeShapes_returns in H.
  destruct H as [(Hb & _) | (_ & _ & _ & _ & _ & _ & _ & res & _ & _ & ->)];
    [discriminate |].
  simpl. repeat split.
Qed.

Lemma wrap32_small (x : Z) : 0 <= x < 2 ^ 32 -> wrap32 x = x.
Proof. intros. unfold wrap32. apply Z.mod_small. assumption. Qed.

Lemma sub32_add32 (a b r : Z) :
  0 <= a + b - r < 2 ^ 32 -> sub32 (add32 a b) r = a + b - r.
Proof.
  intros H. unfold sub32, add32, wrap32.
  rewrite Zminus_mod_idemp_l. apply Z.mod_small. assumption.
Qed.

(** Without overflow, [RoundUpToNearestMultiple] is the least multiple not
    below its argument. *)
Lemma RoundUpToNearestMultiple_exact (num m : Z) :
  0 < m -> 0 <= num -> num + m <= 2 ^ 32 ->
  RoundUpToNearestMultiple num m mod m = 0
  /\ num <= RoundUpToNearestMultiple num m < num + m.
Proof.
  intros Hm Hnum Hfit. unfold RoundUpToNearestMultiple.
  pose proof (Z.mod_pos_bound num m Hm) as Hr.
  destruct (Z.eqb_spec (num mod m) 0) as [H0 | H0].
  - split; [assumption | lia].
  - rewrite sub32_add32 by lia. split; [| lia].
    replace (num + m - num mod m) with (num - num mod m + 1 * m) by ring.
    rewrite Z.mod_add by lia.
    rewrite Zminus_mod_idemp_r. rewrite Z.sub_diag. apply Z.mod_0_l. lia.
Qed.

Lemma multiple_of_multiple (x lanes bricks : Z) :
  0 < lanes -> 0 < bricks -> bricks mod lanes = 0 -> x mod bricks = 0 ->
  x mod lanes = 0.
Proof.
  intros Hl Hb Hbl Hx.
  apply Z.mod_divide in Hbl; [| lia]. apply Z.mod_divide in Hx; [| lia].
  apply Z.mod_divide; [lia |]. eapply Z.divide_trans; eassumption.
Qed.

Lemma two_tier_rounding (tier1 : bool) (num lanes bricks : Z) :
  RoundsToLanes num lanes bricks ->
  (if tier1 then RoundUpToNearestMultiple num bricks
   else RoundUpToNearestMultiple num lanes) mod lanes = 0.
Proof.
  intros (Hl & Hb & Hbl & Hnum & Hfit).
  assert (lanes <= bricks).
  { apply Z.mod_divide in Hbl; [| lia]. apply Z.divide_pos_le in Hbl; lia. }
  destruct tier1.
  - apply (multiple_of_multiple _ lanes bricks); try assumption.
    apply RoundUpToNearestMultiple_exact; lia.
  - apply RoundUpToNearestMultiple_exact; lia.
Qed.

(** X20. Where C3 holds. In every configuration accepted by
    [TryStripeShapes] the height and width of the input stripe and of the
    output stripe (after any activation-compression widening) are exact
    multiples of the brick-group height and width. When the SRAM-lane
    granule divides the brick-group-channel granule and the rounding stays
    within 32 bits, the input-stripe channel count is an exact multiple of
    lane count times stride size; and the output-stripe channel count is an
    exact multiple of lane count times channel multiplier provided that the
    depth maximum is such a multiple whenever the cap of line 147 changes the
    count, and the minimum compression depth is such a multiple whenever the
    widening of line 279 replaces it. *)
Theorem accepted_stripes_are_aligned s c s' c' :
  TryStripeShapes args s c = Returns (true, s', c') ->
  let input := stripeShape (inputAllocation c') in
  let output := stripeShape (outputAllocation c') in
  let lanes := GetNumberOfSrams (arg_capabilities args) in
  let outputGranule := mulFraction lanes (m_C (shapeMultiplier args)) in
  GetHeight input mod brickGroupHeight args = 0
  /\ GetWidth input mod brickGroupWidth args = 0
  /\ GetHeight output mod brickGroupHeight args = 0
  /\ GetWidth output mod brickGroupWidth args = 0
  /\ (RoundsToLanes (arg_requestedInputChannels args)
        (mul32 lanes (strideSize args))
        (mul32 (brickGroupChannels args) (strideSize args)) ->
      GetChannels input mod mul32 lanes (strideSize args) = 0)
  /\ (RoundsToLanes (GetChannels (arg_requestedOutputStripe args))
        outputGranule
        (mulFraction (brickGroupChannels args) (m_C (shapeMultiplier args))) ->
      (outputStripeChannels_capped args <> outputStripeChannels_requested args ->
       arg_depthMax args mod outputGranule = 0) ->
      (fcafWidens args = true -> minFcafDepth args mod outputGranule = 0) ->
      GetChannels output mod outputGranule = 0).
Proof.
  intros H input output lanes outputGranule.
  destruct (accepted_allocations _ _ _ _ H) as (Hi & Ho & _).
  apply TryStripeShapes_returns in H.
  destruct H as [(Hb & _) | (_ & Hih & Hiw & _ & _ & Hoh & How & _)];
    [discriminate |].
  subst input output. rewrite Hi, Ho.
  repeat (split; [assumption |]). split.
  - intros Hr. cbn [inputStripe GetChannels dim3]. unfold inputStripeChannels.
    apply two_tier_rounding. exact Hr.
  - intros Hr Hcap Hfcaf. cbn [outputStripe GetChannels dim3].
    unfold outputStripeChannels.
    destruct (fcafWidens args) eqn:Hw; [apply Hfcaf; reflexivity |].
    pose proof (two_tier_rounding
      ((DivRoundUp (GetChannels (arg_outputShape args))
          (GetChannels (arg_requestedOutputStripe args)) >? 1)
       && (GetChannels (arg_requestedOutputStripe args)
           >? mulFraction (brickGroupChannels args) (m_C (shapeMultiplier args))))
      _ _ _ Hr) as Hreq.
    fold (outputStripeChannels_requested args) in Hreq.
    destruct (Z.eq_dec (outputStripeChannels_capped args)
                (outputStripeChannels_requested args)) as [Heq | Hne];
      [rewrite Heq; exact Hreq |].
    specialize (Hcap Hne). revert Hne. unfold outputStripeChannels_capped.
    destruct (DivRoundUp (GetHeight (arg_inputShape args)) (inputStripeHeight args)
              >? 1); [| intros Hne; exfalso; apply Hne; reflexivity].
    destruct (Z.min_spec (outputStripeChannels_requested args) (arg_depthMax args))
      as [[_ ->] | [_ ->]]; intros Hne; [exfalso; apply Hne; reflexivity |].
    exact Hcap.
Qed.

(** C4, as the code has it. In every configuration accepted by
    [TryStripeShapes] the output tile is no larger than the byte size of the
    full output tensor with its height and width rounded up to the brick
    group and its channels rounded up to the OFM lane count. *)
Theorem accepted_output_tile_is_bounded s c s' c' :
  TryStripeShapes args s c = Returns (true, s', c') ->
  tileSize (outputAllocation c')
  <= TotalSizeBytes
       (mkShape 1
          (RoundUpToNearestMultiple (GetHeight (arg_outputShape args))
             (brickGroupHeight args))
          (RoundUpToNearestMultiple (GetWidth (arg_outputShape args))
             (brickGroupWidth args))
          (RoundUpToNearestMultiple (GetChannels (arg_outputShape args))
             (GetNumberOfOfm (arg_capabilities args)))).
Proof.
  intros H. destruct (accepted_allocations _ _ _ _ H) as (_ & _ & _ & _ & Ho & _).
  rewrite Ho. unfold outputTile. apply Z.le_min_r.
Qed.



(** *** Full depth and partial depth *)

Lemma wrap32_range (x : Z) : 0 <= wrap32 x < 2 ^ 32.
Proof. unfold wrap32. apply Z.mod_pos_bound. lia. Qed.

(** Rounding a request of at most half the channels reaches the full
    channel count exactly when the granule does. *)
Lemma RoundUpToNearestMultiple_reaches (x d n : Z) :
  1 <= x -> 2 * x <= n -> n < 2 ^ 32 -> 0 <= d < 2 ^ 32 ->
  (n <= RoundUpToNearestMultiple x d <-> n <= d).
Proof.
  intros Hx Hn Hn32 Hd. unfold RoundUpToNearestMultiple.
  destruct (Z.eq_dec d 0) as [-> | Hd0].
  - rewrite Zmod_0_r.
    destruct (Z.eqb_spec x 0); [lia |].
    unfold sub32, add32. rewrite Z.add_0_r.
    rewrite (wrap32_small x) by lia. rewrite Z.sub_diag.
    rewrite wrap32_small by lia. lia.
  - pose proof (Z.mod_pos_bound x d ltac:(lia)) as Hr.
    destruct (Z.eqb_spec (x mod d) 0) as [H0 | H0].
    + split; [lia |]. intros Hnd.
      rewrite Z.mod_small in H0 by lia. lia.
    + unfold sub32, add32, wrap32. rewrite Zminus_mod_idemp_l.
      destruct (Z_lt_le_dec x d) as [Hlt | Hge].
      * rewrite (Z.mod_small x d) by lia.
        replace (x + d - x) with d by ring.
        rewrite Z.mod_small by lia. reflexivity.
      * assert (Hv : 0 <= x + d - x mod d < 2 ^ 33) by lia.
        assert (Hw : (x + d - x mod d) mod 2 ^ 32 <= x + d - x mod d)
          by (apply Z.mod_le; lia).
        lia.
Qed.

Lemma inputStripeChannels_partial_iff :
  let n := GetChannels (arg_inputShape args) in
  let lanes := mul32 (GetNumberOfSrams (arg_capabilities args)) (strideSize args) in
  let bricks := mul32 (brickGroupChannels args) (strideSize args) in
  n < 2 ^ 32 ->
  1 <= arg_requestedInputChannels args ->
  2 * arg_requestedInputChannels args <= n ->
  lanes <= bricks ->
  (inputStripeChannels args < n <-> lanes < n).
Proof.
  intros n lanes bricks Hn Hx Hhalf Hgran.
  pose proof (wrap32_range (GetNumberOfSrams (arg_capabilities args) * strideSize args))
    as Hlanes.
  pose proof (wrap32_range (brickGroupChannels args * strideSize args)) as Hbricks.
  fold (mul32 (GetNumberOfSrams (arg_capabilities args)) (strideSize args)) in Hlanes.
  fold (mul32 (brickGroupChannels args) (strideSize args)) in Hbricks.
  fold lanes in Hlanes. fold bricks in Hbricks.
  unfold inputStripeChannels. fold n lanes bricks.
  destruct ((DivRoundUp n (arg_requestedInputChannels args) >? 1)
            && (arg_requestedInputChannels args >? bricks)) eqn:Htier.
  - apply andb_prop in Htier. destruct Htier as [_ Hgt].
    apply Z.gtb_lt in Hgt.
    pose proof (RoundUpToNearestMultiple_reaches
                  (arg_requestedInputChannels args) bricks n Hx Hhalf Hn Hbricks).
    lia.
  - pose proof (RoundUpToNearestMultiple_reaches
                  (arg_requestedInputChannels args) lanes n Hx Hhalf Hn Hlanes).
    lia.
Qed.


(** The two assertions of [TryStripeShapes] and what raises them. *)
Lemma TryStripeShapes_asserts s c x :
  TryStripeShapes args s c = AssertFails x ->
  (x = WeightsMustBeHwio /\ isHwio args = false)
  \/ (x = CompressionNeedsVersion1
      /\ arg_activationCompression args = true
      /\ GetActivationCompressionVersion (arg_capabilities args) <> 1).
Proof.
  intros H. destruct x.
  - left. split; [reflexivity |]. revert H. unfold TryStripeShapes.
    destruct (negb _ || negb _); [discriminate |].
    destruct (isHwio args); [| reflexivity]. cbn [negb].
    destruct (_ && _); [discriminate |].
    destruct (negb _ || negb _); [discriminate |].
    destruct (FitsInSram _ _ _ _ _ _) as [s1 res]. destruct (negb _); discriminate.
  - right. split; [reflexivity |].
    apply TryStripeShapes_compression_assert in H. exact H.
  - exfalso. revert H. unfold TryStripeShapes.
    destruct (negb _ || negb _); [discriminate |].
    destruct (negb (isHwio args)); [discriminate |].
    destruct (_ && _); [discriminate |].
    destruct (negb _ || negb _); [discriminate |].
    destruct (FitsInSram _ _ _ _ _ _) as [s1 res]. destruct (negb _); discriminate.
Qed.


End ResolverProperties.

(** ** The traversal searches *)

Section SearchProperties.

Context {E : Externals}.

Variable mceOperation : MceOperation.
Variable upsampleType : UpsampleType.
Variable inputShape : TensorShape.
Variable outputShape : TensorShape.
Variable weightsFormat : DataFormat.
Variable weightsShape : TensorShape.
Variable pad : Z * Z.
Variable allowedBlockConfigs : list BlockConfig.
Variable capabilities : HardwareCapabilities.
Variable mceShapeMultiplier : ShapeMultiplier.
Variable pleShapeMultiplier : ShapeMultiplier.
Variable inputStaticAndOffset : bool * Z.
Variable depthMax : Z.

Local Abbreviation TryConfZXY resolver :=
  (ZXY_TryConf resolver mceOperation inputShape outputShape weightsFormat weightsShape
     pad capabilities mceShapeMultiplier pleShapeMultiplier inputStaticAndOffset
     depthMax).
Local Abbreviation TryConfXY resolver :=
  (XY_TryConf resolver mceOperation inputShape outputShape weightsFormat weightsShape
     pad capabilities mceShapeMultiplier pleShapeMultiplier inputStaticAndOffset
     depthMax).
Local Abbreviation tryReloadings resolver :=
  (ZXY_tryReloadings resolver mceOperation inputShape outputShape weightsFormat
     weightsShape pad capabilities mceShapeMultiplier pleShapeMultiplier
     inputStaticAndOffset depthMax).
Local Abbreviation paramsZXY :=
  (ZXY_paramsList mceOperation upsampleType inputShape allowedBlockConfigs
     capabilities pleShapeMultiplier).
Local Abbreviation paramsXY :=
  (XY_paramsList mceOperation upsampleType inputShape allowedBlockConfigs
     capabilities pleShapeMultiplier).
Local Abbreviation searchZXY resolver :=
  (TryInputZXYOutputXYZ_over resolver mceOperation upsampleType inputShape outputShape
     weightsFormat weightsShape pad allowedBlockConfigs capabilities
     mceShapeMultiplier pleShapeMultiplier inputStaticAndOffset depthMax).
Local Abbreviation searchXY resolver :=
  (TryInputXYOutputXYZ_over resolver mceOperation upsampleType inputShape outputShape
     weightsFormat weightsShape pad allowedBlockConfigs capabilities
     mceShapeMultiplier pleShapeMultiplier inputStaticAndOffset depthMax).

(** *** Partial depth *)

Lemma ZXY_TryConf_true resolver p a b wr s c s' c' :
  TryConfZXY resolver p a b wr s c = Returns (true, s', c') ->
  GetChannels (stripeShape (inputAllocation c')) < GetChannels inputShape.
Proof.
  unfold ZXY_TryConf.
  destruct (negb (negb b || a)); [discriminate |].
  destruct (resolver _ s c) as [x | [[[] s1] c1]]; try discriminate.
  destruct (Z.ltb_spec (GetChannels (stripeShape (inputAllocation c1)))
                       (GetChannels inputShape)) as [Hlt | Hlt];
    intros H; inversion H; subst.
  simpl. assumption.
Qed.

Lemma ZXY_tryReloadings_true resolver l options s c s' c' :
  tryReloadings resolver l options s c = Returns (true, s', c') ->
  GetChannels (stripeShape (inputAllocation c')) < GetChannels inputShape.
Proof.
  revert s c s' c'. induction options as [| wr later IH]; simpl; intros s c s' c' H.
  - exfalso. eapply giveUp_not_true; eauto.
  - revert H.
    apply (tryEach_true_inv _
             (fun _ c' => GetChannels (stripeShape (inputAllocation c'))
                          < GetChannels inputShape)).
    + intros p s0 c0 s1 c1. apply ZXY_TryConf_true.
    + intros s0 c0 s1 c1.
      apply (tryEach_true_inv _
               (fun _ c' => GetChannels (stripeShape (inputAllocation c'))
                            < GetChannels inputShape)).
      * intros p s2 c2 s3 c3. apply ZXY_TryConf_true.
      * intros s2 c2 s3 c3.
        apply (tryEach_true_inv _
                 (fun _ c' => GetChannels (stripeShape (inputAllocation c'))
                              < GetChannels inputShape)).
        -- intros p s4 c4 s5 c5. apply ZXY_TryConf_true.
        -- intros s4 c4 s5 c5. apply IH.
Qed.

Lemma ZXY_paramsList_empty :
  GetChannels inputShape <= 2 -> paramsZXY = [].
Proof.
  intros Hc. unfold ZXY_paramsList.
  apply flat_map_nil. intros compression _.
  apply flat_map_nil. intros blockConfig _.
  destruct (negb _); [reflexivity |].
  apply channelSplits_nil in Hc. rewrite Hc. reflexivity.
Qed.

(** C5. The channel-split search returns success only with a configuration
    whose input stripe has strictly fewer channels than the input tensor; and
    when the loop over the split counts 2, 3, ... below the input-channel
    count is empty (at most two input channels), the search returns failure
    and leaves the allocator and the configuration as they were. *)
Theorem TryInputZXYOutputXYZ_partial_depth_only s c :
  (forall s' c',
      TryInputZXYOutputXYZ mceOperation upsampleType inputShape outputShape
        weightsFormat weightsShape pad allowedBlockConfigs capabilities
        mceShapeMultiplier pleShapeMultiplier inputStaticAndOffset depthMax s c
      = Returns (true, s', c') ->
      GetChannels (stripeShape (inputAllocation c')) < GetChannels inputShape)
  /\ (channelSplits (GetChannels inputShape) = [] ->
      TryInputZXYOutputXYZ mceOperation upsampleType inputShape outputShape
        weightsFormat weightsShape pad allowedBlockConfigs capabilities
        mceShapeMultiplier pleShapeMultiplier inputStaticAndOffset depthMax s c
      = Returns (false, s, c)).
Proof.
  unfold TryInputZXYOutputXYZ, TryInputZXYOutputXYZ_over. split.
  - intros s' c'.
    destruct (fst inputStaticAndOffset); [discriminate |].
    destruct (length paramsZXY =? 0)%nat; [discriminate |].
    apply ZXY_tryReloadings_true.
  - intros Hnil. apply channelSplits_nil in Hnil.
    destruct (fst inputStaticAndOffset); [reflexivity |].
    rewrite (ZXY_paramsList_empty Hnil). reflexivity.
Qed.

(** *** Rejection before any trial *)

(** C8. For an operator that is not fully connected, and likewise for an
    input fixed at a caller-supplied offset, the whole-channel search returns
    failure with the allocator and the configuration untouched, and it does so
    whatever resolver it is given: no candidate reaches the resolver. *)
Theorem TryInputXYOutputXYZ_rejects_without_resolving s c :
  mceOperation <> FULLY_CONNECTED \/ fst inputStaticAndOffset = true ->
  (forall resolver : StripeResolver,
      searchXY resolver s c = Returns (false, s, c))
  /\ TryInputXYOutputXYZ mceOperation upsampleType inputShape outputShape
       weightsFormat weightsShape pad allowedBlockConfigs capabilities
       mceShapeMultiplier pleShapeMultiplier inputStaticAndOffset depthMax s c
     = Returns (false, s, c).
Proof.
  intros H.
  assert (Hall : forall resolver : StripeResolver,
             searchXY resolver s c = Returns (false, s, c)).
  { intros resolver. unfold TryInputXYOutputXYZ_over.
    destruct (fst inputStaticAndOffset); [reflexivity |].
    destruct H as [H | H]; [| discriminate].
    destruct mceOperation; simpl; try reflexivity. congruence. }
  split; [exact Hall | apply Hall].
Qed.

(** *** The compression assertion *)

Lemma activationCompressionOptions_true :
  In true (activationCompressionOptions mceOperation capabilities) ->
  GetActivationCompressionVersion capabilities = 1
  /\ IsFullyConnected mceOperation = false.
Proof.
  unfold activationCompressionOptions. intros H. apply in_app_or in H.
  destruct H as [H | [H | []]]; [| discriminate].
  destruct (Z.eqb_spec (GetActivationCompressionVersion capabilities) 1);
    destruct (IsFullyConnected mceOperation); simpl in H; try contradiction.
  auto.
Qed.

Lemma ZXY_paramsList_compression p :
  In p paramsZXY ->
  params_activationCompression p = true ->
  GetActivationCompressionVersion capabilities = 1
  /\ IsFullyConnected mceOperation = false.
Proof.
  unfold ZXY_paramsList. intros Hp Hc.
  apply in_flat_map in Hp. destruct Hp as (compression & Hopt & Hp).
  apply in_flat_map in Hp. destruct Hp as (blockConfig & _ & Hp).
  destruct (negb _) in Hp; [contradiction |].
  apply in_map_iff in Hp. destruct Hp as (k & <- & _).
  simpl in Hc. subst compression.
  apply activationCompressionOptions_true. exact Hopt.
Qed.

Lemma ZXY_TryConf_guard resolver p a b wr s c :
  (params_activationCompression p = true ->
   GetActivationCompressionVersion capabilities = 1) ->
  TryConfZXY (guardCompression resolver) p a b wr s c
  = TryConfZXY resolver p a b wr s c.
Proof.
  intros Hp. unfold ZXY_TryConf, guardCompression. cbn [arg_activationCompression
    arg_capabilities].
  destruct (params_activationCompression p); [| reflexivity].
  rewrite Hp by reflexivity. reflexivity.
Qed.

Lemma ZXY_tryReloadings_guard resolver l options :
  (forall p, In p l -> params_activationCompression p = true ->
             GetActivationCompressionVersion capabilities = 1) ->
  forall s c,
    tryReloadings (guardCompression resolver) l options s c
    = tryReloadings resolver l options s c.
Proof.
  intros Hl. induction options as [| wr later IH]; simpl; intros s c; [reflexivity |].
  apply tryEach_ext;
    [intros p Hp s0 c0; cbv beta; apply ZXY_TryConf_guard; exact (Hl p Hp) |].
  apply tryEach_ext;
    [intros p Hp s0 c0; cbv beta; apply ZXY_TryConf_guard; exact (Hl p Hp) |].
  apply tryEach_ext;
    [intros p Hp s0 c0; cbv beta; apply ZXY_TryConf_guard; exact (Hl p Hp) |].
  exact IH.
Qed.

Lemma ZXY_TryConf_no_compression_assert p a b wr s c :
  In p paramsZXY ->
  TryConfZXY TryStripeShapes p a b wr s c <> AssertFails CompressionNeedsVersion1.
Proof.
  intros Hp. unfold ZXY_TryConf.
  destruct (negb (negb b || a)); [discriminate |].
  destruct (TryStripeShapes _ s c) as [x | [[[] s1] c1]] eqn:Hr.
  - intros H. inversion H; subst x.
    apply TryStripeShapes_compression_assert in Hr. cbn in Hr.
    destruct Hr as [Hc Hv]. apply Hv.
    apply (ZXY_paramsList_compression p Hp Hc).
  - destruct (_ <? _); discriminate.
  - discriminate.
Qed.

Lemma ZXY_tryReloadings_no_compression_assert options s c :
  tryReloadings TryStripeShapes paramsZXY options s c
  <> AssertFails CompressionNeedsVersion1.
Proof.
  revert s c. induction options as [| wr later IH]; simpl; intros s c.
  - apply giveUp_not_assert.
  - apply tryEach_assert_inv;
      [intros; apply ZXY_TryConf_no_compression_assert; assumption |].
    apply tryEach_assert_inv;
      [intros; apply ZXY_TryConf_no_compression_assert; assumption |].
    apply tryEach_assert_inv;
      [intros; apply ZXY_TryConf_no_compression_assert; assumption |].
    exact IH.
Qed.

Lemma XY_TryConf_no_compression_assert p a s c :
  TryConfXY TryStripeShapes p a s c <> AssertFails CompressionNeedsVersion1.
Proof.
  unfold XY_TryConf.
  destruct (TryStripeShapes _ s c) as [x | [[[] s1] c1]] eqn:Hr; try discriminate.
  intros H. inversion H; subst x.
  apply TryStripeShapes_compression_assert in Hr. cbn in Hr.
  destruct Hr as [Hc _]. discriminate.
Qed.

(** C10. Every candidate of the channel-split search that asks for
    activation compression was generated on hardware whose compression
    version is 1; making the check of line 260 at every call of either
    search changes the result of neither, whatever the resolver does; hence
    neither search of the program ever stops on the compression assertion. *)
Theorem compression_assertion_unreachable s c :
  (forall p, In p paramsZXY ->
             params_activationCompression p = true ->
             GetActivationCompressionVersion capabilities = 1)
  /\ (forall resolver : StripeResolver,
         searchZXY (guardCompression resolver) s c = searchZXY resolver s c)
  /\ (forall resolver : StripeResolver,
         searchXY (guardCompression resolver) s c = searchXY resolver s c)
  /\ TryInputZXYOutputXYZ mceOperation upsampleType inputShape outputShape
       weightsFormat weightsShape pad allowedBlockConfigs capabilities
       mceShapeMultiplier pleShapeMultiplier inputStaticAndOffset depthMax s c
     <> AssertFails CompressionNeedsVersion1
  /\ TryInputXYOutputXYZ mceOperation upsampleType inputShape outputShape
       weightsFormat weightsShape pad allowedBlockConfigs capabilities
       mceShapeMultiplier pleShapeMultiplier inputStaticAndOffset depthMax s c
     <> AssertFails CompressionNeedsVersion1.
Proof.
  assert (Hlist : forall p, In p paramsZXY ->
                            params_activationCompression p = true ->
                            GetActivationCompressionVersion capabilities = 1).
  { intros p Hp Hc. apply (ZXY_paramsList_compression p Hp Hc). }
  split; [exact Hlist |]. split; [| split; [| split]].
  - intros resolver. unfold TryInputZXYOutputXYZ_over.
    destruct (fst inputStaticAndOffset); [reflexivity |].
    destruct (length paramsZXY =? 0)%nat; [reflexivity |].
    apply ZXY_tryReloadings_guard. exact Hlist.
  - intros resolver. unfold TryInputXYOutputXYZ_over.
    destruct (fst inputStaticAndOffset); [reflexivity |].
    destruct (negb _); [reflexivity |].
    destruct (length paramsXY =? 0)%nat; reflexivity.
  - unfold TryInputZXYOutputXYZ, TryInputZXYOutputXYZ_over.
    destruct (fst inputStaticAndOffset); [discriminate |].
    destruct (length paramsZXY =? 0)%nat; [discriminate |].
    apply ZXY_tryReloadings_no_compression_assert.
  - unfold TryInputXYOutputXYZ, TryInputXYOutputXYZ_over.
    destruct (fst inputStaticAndOffset); [discriminate |].
    destruct (negb _); [discriminate |].
    destruct (length paramsXY =? 0)%nat; [discriminate |].
    apply tryEach_assert_inv; [intros; apply XY_TryConf_no_compression_assert |].
    apply tryEach_assert_inv; [intros; apply XY_TryConf_no_compression_assert |].
    intros s0 c0. apply giveUp_not_assert.
Qed.


(** *** Priority of the buffering tiers *)

(** The arguments with which a trial calls the resolver (lines 425-430). *)
Local Abbreviation argsOf p allowInputBuffering avoidInputReloading weightsReloading :=
  (mkArgs mceOperation
     (mkShape 1 (params_outputStripeHeight p) (params_outputStripeWidth p)
              (params_outputStripeChannel p))
     (params_inputStripeChannel p) inputShape outputShape weightsFormat
     weightsShape capabilities mceShapeMultiplier pleShapeMultiplier pad
     inputStaticAndOffset depthMax allowInputBuffering avoidInputReloading
     (params_activationCompression p) weightsReloading).

Local Abbreviation runTrial resolver :=
  (fun t => TryConfZXY resolver (trial_params t) (trial_allowInputBuffering t)
              (trial_avoidInputReloading t) (trial_weightsReloading t)).




Lemma ZXY_candidate_request p :
  In p paramsZXY ->
  1 <= params_inputStripeChannel p
  /\ 2 * params_inputStripeChannel p <= GetChannels inputShape.
Proof.
  unfold ZXY_paramsList. intros Hp.
  apply in_flat_map in Hp. destruct Hp as (compression & _ & Hp).
  apply in_flat_map in Hp. destruct Hp as (blockConfig & _ & Hp).
  destruct (negb _) in Hp; [contradiction |].
  apply in_map_iff in Hp. destruct Hp as (k & <- & Hk).
  apply channelSplits_range in Hk. cbn [params_inputStripeChannel].
  pose proof (Z.mul_div_le (GetChannels inputShape) k ltac:(lia)).
  assert (0 < GetChannels inputShape / k) by (apply Z.div_str_pos; lia).
  split; [lia | nia].
Qed.





End SearchProperties.

(** ** The searches on the reference platform *)

Lemma TryStripeShapes_commits_or_leaves_untouched_witness :
  TryStripeShapes (E := refPlatform) bufferedArgs (mkBump 0 100000) emptyConfig
  = Returns (true, mkBump 6144 100000,
             mkConfig (mkAllocation (mkShape 1 8 8 32) 4096 0)
                      (mkAllocation (mkShape 1 8 8 16) 1024 5120)
                      (mkAllocation (mkShape 1 1 32 16) 1024 4096) 0 0 NONE)
  /\ exists res,
       bumpFitsInSram (mkBump 0 100000) (refCapabilities 0)
         (inputTile (E := refPlatform) bufferedArgs)
         (weightTile (E := refPlatform) bufferedArgs)
         (outputTile (E := refPlatform) bufferedArgs) (false, 0)
       = (mkBump 6144 100000, res)
       /\ m_Success res = true.
Proof.
  assert (Hrun :
    TryStripeShapes (E := refPlatform) bufferedArgs (mkBump 0 100000) emptyConfig
    = Returns (true, mkBump 6144 100000,
               mkConfig (mkAllocation (mkShape 1 8 8 32) 4096 0)
                        (mkAllocation (mkShape 1 8 8 16) 1024 5120)
                        (mkAllocation (mkShape 1 1 32 16) 1024 4096) 0 0 NONE))
    by (vm_compute; reflexivity).
  split; [exact Hrun |].
  destruct (proj2 (TryStripeShapes_commits_or_leaves_untouched
                     (E := refPlatform) bufferedArgs _ _ _ _ _ Hrun) eq_refl)
    as (res & Hfit & Hok & _).
  exists res. split; [exact Hfit | exact Hok].
Defined.

(** C1. A run of the channel-split search that returns failure with the
    allocator advanced and the configuration written. The convolution has 16
    input channels, so every candidate split rounds back up to a 16-channel,
    full-depth input stripe. The first candidate is resolved successfully
    (1024 + 256 + 1024 bytes are committed and the configuration is filled in)
    and then rejected by the partial-depth check of line 433; no later
    candidate fits the 1792 bytes that are left; the search returns false with
    2304 bytes of the caller's allocator taken and the rejected stripes in the
    caller's configuration. *)
Theorem TryInputZXYOutputXYZ_failure_keeps_rejected_trial :
  convSearch (TryInputZXYOutputXYZ (E := refPlatform)) 16 4096
  = Returns (false, mkBump 2304 4096,
             mkConfig (mkAllocation (mkShape 1 8 8 16) 1024 0)
                      (mkAllocation (mkShape 1 8 8 16) 1024 1280)
                      (mkAllocation (mkShape 1 1 16 16) 256 1024) 0 0 NONE).
Proof. vm_compute. reflexivity. Qed.

Lemma TryInputZXYOutputXYZ_partial_depth_only_witness :
  (exists s' c',
      convSearch (TryInputZXYOutputXYZ (E := refPlatform)) 64 100000
      = Returns (true, s', c')
      /\ GetChannels (stripeShape (inputAllocation c')) < 64)
  /\ convSearch (TryInputZXYOutputXYZ (E := refPlatform)) 2 100000
     = Returns (false, mkBump 0 100000, emptyConfig).
Proof.
  split.
  - eexists. eexists.
    assert (Hrun : convSearch (TryInputZXYOutputXYZ (E := refPlatform)) 64 100000
                   = Returns (true, mkBump 6144 100000,
                       mkConfig (mkAllocation (mkShape 1 8 8 32) 4096 0)
                                (mkAllocation (mkShape 1 8 8 16) 1024 5120)
                                (mkAllocation (mkShape 1 1 32 16) 1024 4096)
                                8 8 STRATEGY_X))
      by (vm_compute; reflexivity).
    split; [exact Hrun |].
    exact (proj1 (TryInputZXYOutputXYZ_partial_depth_only (E := refPlatform)
                    CONVOLUTION OFF (mkShape 1 8 8 64) (mkShape 1 8 8 16) HWIO
                    (mkShape 1 1 64 16) (0, 0) [mkBlock 8 8] (refCapabilities 0)
                    unitMultiplier unitMultiplier (false, 0) (2 ^ 32 - 1)
                    (mkBump 0 100000) emptyConfig) _ _ Hrun).
  - exact (proj2 (TryInputZXYOutputXYZ_partial_depth_only (E := refPlatform)
                    CONVOLUTION OFF (mkShape 1 8 8 2) (mkShape 1 8 8 16) HWIO
                    (mkShape 1 1 2 16) (0, 0) [mkBlock 8 8] (refCapabilities 0)
                    unitMultiplier unitMultiplier (false, 0) (2 ^ 32 - 1)
                    (mkBump 0 100000) emptyConfig) eq_refl).
Defined.

Lemma TryInputXYOutputXYZ_rejects_without_resolving_witness :
  convSearch (TryInputXYOutputXYZ (E := refPlatform)) 64 100000
  = Returns (false, mkBump 0 100000, emptyConfig).
Proof.
  apply (TryInputXYOutputXYZ_rejects_without_resolving (E := refPlatform)
           CONVOLUTION OFF (mkShape 1 8 8 64) (mkShape 1 8 8 16) HWIO
           (mkShape 1 1 64 16) (0, 0) [mkBlock 8 8] (refCapabilities 0)
           unitMultiplier unitMultiplier (false, 0) (2 ^ 32 - 1)).
  left. discriminate.
Defined.

(** ** The block-config filter on the reference platform *)

(** The claim C6 as it was stated fails: the 32-bit product of 65536 and
    65536 is zero, so the filter accepts a block of 65536 by 65536 elements
    on a machine with 512 accumulators per engine, although width times
    height exceeds 512. *)
Lemma block_area_wraps_around :
  IsBlockConfigCompatible (mkBlock 65536 65536) (refCapabilities 0) CONVOLUTION OFF
  = true
  /\ m_BlockWidth (mkBlock 65536 65536) * m_BlockHeight (mkBlock 65536 65536)
     > GetTotalAccumulatorsPerEngine (refCapabilities 0).
Proof. split; vm_compute; reflexivity. Qed.

Lemma IsBlockConfigCompatible_rejects_exactly_witness :
  0 <= 32 * 32 < 2 ^ 32
  /\ IsBlockConfigCompatible (mkBlock 32 32) (refCapabilities 0) CONVOLUTION OFF
     = false.
Proof.
  split; [lia |].
  apply (proj2 (proj2 (IsBlockConfigCompatible_rejects_exactly
                         (mkBlock 32 32) (refCapabilities 0) CONVOLUTION OFF))).
  - simpl. lia.
  - left. vm_compute. reflexivity.
Defined.

(** ** The resolver on the reference platform *)

(** C3. The resolver accepts a configuration that the claim and the
    comment of lines 119-120 exclude: on a machine with 16 SRAM lanes and a
    unit channel multiplier, with the image two input stripes tall and a depth
    maximum of 40, the cap of line 147 lowers the 48 output channels to 40 and
    nothing rounds them again, so the accepted output stripe has 40 channels,
    which is no multiple of 16. *)
Lemma accepted_output_channels_not_lane_multiple :
  exists s' c',
    TryStripeShapes (E := refPlatform) cappedArgs (mkBump 0 100000) emptyConfig
    = Returns (true, s', c')
    /\ outputStripeChannels_requested cappedArgs = 48
    /\ GetChannels (stripeShape (outputAllocation c')) = 40
    /\ GetChannels (stripeShape (outputAllocation c'))
       mod mulFraction (GetNumberOfSrams (arg_capabilities cappedArgs))
                       (m_C (shapeMultiplier cappedArgs))
       <> 0.
Proof.
  eexists. eexists. split; [vm_compute; reflexivity |].
  split; [vm_compute; reflexivity |].
  split; [vm_compute; reflexivity |].
  vm_compute. discriminate.
Qed.

(** The first rounding tier breaks the lane multiple as well when the lanes
    do not divide the brick-group channels: with 32 lanes and brick groups of
    16 channels, 40 requested input channels are rounded to 48. *)
Lemma accepted_input_channels_not_lane_multiple :
  exists s' c',
    TryStripeShapes (E := refPlatform) wideLaneArgs (mkBump 0 100000) emptyConfig
    = Returns (true, s', c')
    /\ GetChannels (stripeShape (inputAllocation c')) = 48
    /\ mul32 (GetNumberOfSrams (arg_capabilities wideLaneArgs))
             (strideSize wideLaneArgs) = 32
    /\ GetChannels (stripeShape (inputAllocation c'))
       mod mul32 (GetNumberOfSrams (arg_capabilities wideLaneArgs))
                 (strideSize wideLaneArgs)
       <> 0.
Proof.
  eexists. eexists. split; [vm_compute; reflexivity |].
  split; [vm_compute; reflexivity |].
  split; [vm_compute; reflexivity |].
  vm_compute. discriminate.
Qed.

Lemma accepted_stripes_are_aligned_witness :
  exists s' c',
    TryStripeShapes (E := refPlatform) laneCappedArgs (mkBump 0 100000) emptyConfig
    = Returns (true, s', c')
    /\ outputStripeChannels_capped (E := refPlatform) laneCappedArgs
       <> outputStripeChannels_requested laneCappedArgs
    /\ GetHeight (stripeShape (inputAllocation c')) mod 8 = 0
    /\ GetHeight (stripeShape (outputAllocation c')) mod 8 = 0
    /\ GetChannels (stripeShape (inputAllocation c')) mod 16 = 0
    /\ GetChannels (stripeShape (outputAllocation c')) mod 16 = 0.
Proof.
  destruct (TryStripeShapes (E := refPlatform) laneCappedArgs (mkBump 0 100000)
              emptyConfig) as [x | [[b s'] c']] eqn:Hrun;
    [vm_compute in Hrun; discriminate |].
  destruct b; [| vm_compute in Hrun; discriminate].
  exists s', c'. split; [reflexivity |].
  split; [vm_compute; discriminate |].
  destruct (accepted_stripes_are_aligned (E := refPlatform) laneCappedArgs _ _ _ _ Hrun)
    as (Hih & _ & Hoh & _ & Hic & Hoc).
  split; [exact Hih |]. split; [exact Hoh |]. split.
  - apply Hic. unfold RoundsToLanes.
    repeat split; try (vm_compute; reflexivity); vm_compute; discriminate.
  - apply Hoc.
    + unfold RoundsToLanes.
      repeat split; try (vm_compute; reflexivity); vm_compute; discriminate.
    + intros _. vm_compute. reflexivity.
    + intros Hw. vm_compute in Hw. discriminate.
Defined.

(** The claim C4 as it was stated fails: with input buffering, two 32-channel
    stripes of a 33-channel input are kept, 4096 bytes, while the whole input
    rounded up to the brick group and to the 16 lanes has 3072 bytes. *)
Lemma accepted_input_tile_exceeds_full_tensor :
  exists s' c',
    TryStripeShapes (E := refPlatform) bufferedArgs (mkBump 0 100000) emptyConfig
    = Returns (true, s', c')
    /\ tileSize (inputAllocation c')
       > TotalSizeBytes
           (mkShape 1
              (RoundUpToNearestMultiple (GetHeight (arg_inputShape bufferedArgs)) 8)
              (RoundUpToNearestMultiple (GetWidth (arg_inputShape bufferedArgs)) 8)
              (RoundUpToNearestMultiple (GetChannels (arg_inputShape bufferedArgs)) 16)).
Proof.
  eexists. eexists. split.
  - vm_compute. reflexivity.
  - vm_compute. reflexivity.
Qed.

Lemma accepted_output_tile_is_bounded_witness :
  exists s' c',
    TryStripeShapes (E := refPlatform) cappedArgs (mkBump 0 100000) emptyConfig
    = Returns (true, s', c')
    /\ tileSize (outputAllocation c') <= 16 * 8 * 64.
Proof.
  assert (Hrun :
    TryStripeShapes (E := refPlatform) cappedArgs (mkBump 0 100000) emptyConfig
    = Returns (true, mkBump 6912 100000,
               mkConfig (mkAllocation (mkShape 1 8 8 16) 1024 0)
                        (mkAllocation (mkShape 1 8 8 40) 5120 1792)
                        (mkAllocation (mkShape 1 1 16 40) 768 1024) 0 0 NONE))
    by (vm_compute; reflexivity).
  eexists. eexists. split; [exact Hrun |].
  exact (accepted_output_tile_is_bounded (E := refPlatform) cappedArgs _ _ _ _ Hrun).
Defined.





(** * Further properties *)

(** ** The block configs after sorting

    The searches depend on the sorted vector through its elements and its
    length only. *)

Lemma insertBlockConfig_perm (b : BlockConfig) (l : list BlockConfig) :
  Permutation (insertBlockConfig b l) (b :: l).
Proof.
  induction l as [| x l IH]; simpl; [apply Permutation_refl |].
  destruct (blockConfigBefore b x); [apply Permutation_refl |].
  eapply Permutation_trans; [apply perm_skip, IH | apply perm_swap].
Qed.

Lemma sortBlockConfigs_in (b : BlockConfig) (l : list BlockConfig) :
  In b (sortBlockConfigs l) <-> In b l.
Proof.
  induction l as [| x l IH]; simpl; [tauto |].
  split; intros H.
  - eapply Permutation_in in H; [| apply insertBlockConfig_perm].
    destruct H as [H | H]; [left; exact H | right; apply IH; exact H].
  - eapply Permutation_in; [apply Permutation_sym, insertBlockConfig_perm |].
    destruct H as [H | H]; [left; exact H | right; apply IH; exact H].
Qed.

(** ** Eligibility *)

Lemma Strategy_eqb_eq (a b : Strategy) : Strategy_eqb a b = true <-> a = b.
Proof. destruct a, b; simpl; split; congruence. Qed.

Lemma IStrategy_eqb_eq (a b : IStrategy) : IStrategy_eqb a b = true <-> a = b.
Proof. destruct a, b; simpl; split; congruence. Qed.

Lemma IsStrategyAllowed_in (T : IStrategy) (strategies : list IStrategy) :
  IsStrategyAllowed T strategies = true <-> In T strategies.
Proof.
  unfold IsStrategyAllowed. rewrite existsb_exists. split.
  - intros (x & Hx & Heq). apply IStrategy_eqb_eq in Heq. subst. exact Hx.
  - intros H. exists T. split; [exact H | apply IStrategy_eqb_eq; reflexivity].
Qed.

(** [IsStrategyX] holds exactly when the operator is a convolution or
    fully connected, the algorithm is the direct one, the configuration
    carries no strategy yet or strategy 7 or strategy FC, and the allowed
    strategies contain strategy 7 or strategy FC; the order and the
    multiplicity of the allowed strategies do not matter. *)
Theorem IsStrategyX_exactly (mceOperation : MceOperation) (tensorConfig : TensorConfig)
    (algorithm : CompilerMceAlgorithm) (allowedStrategies : list IStrategy) :
  IsStrategyX mceOperation tensorConfig algorithm allowedStrategies = true
  <-> (mceOperation = CONVOLUTION \/ mceOperation = FULLY_CONNECTED)
      /\ algorithm = Direct
      /\ (strategy tensorConfig = STRATEGY_7
          \/ strategy tensorConfig = STRATEGY_FC
          \/ strategy tensorConfig = NONE)
      /\ (In Strategy7 allowedStrategies \/ In StrategyFc allowedStrategies).
Proof.
  unfold IsStrategyX.
  rewrite !andb_true_iff, !orb_true_iff, !MceOperation_eqb_eq, !Strategy_eqb_eq,
    !IsStrategyAllowed_in.
  assert (Halg : match algorithm with Direct => true | _ => false end = true
                 <-> algorithm = Direct)
    by (destruct algorithm; split; congruence).
  rewrite Halg. tauto.
Qed.

(** ** Whole depth *)

Lemma DivRoundUp_self (n : Z) : 1 <= n -> 2 * n <= 2 ^ 32 -> DivRoundUp n n = 1.
Proof.
  intros Hn Hfit. unfold DivRoundUp. rewrite sub32_add32 by lia.
  replace (n + n - 1) with (1 * n + (n - 1)) by ring.
  rewrite Z.div_add_l by lia. rewrite Z.div_small by lia. reflexivity.
Qed.

(** Requesting all the input channels yields a stripe that holds them
    all. *)
Lemma inputStripeChannels_whole (args : ResolverArgs) :
  let n := GetChannels (arg_inputShape args) in
  let lanes := mul32 (GetNumberOfSrams (arg_capabilities args)) (strideSize args) in
  arg_requestedInputChannels args = n ->
  1 <= n -> 2 * n <= 2 ^ 32 -> 0 < lanes -> n + lanes <= 2 ^ 32 ->
  n <= inputStripeChannels args.
Proof.
  intros n lanes Hreq Hn Hfit Hlanes Hround.
  unfold inputStripeChannels. rewrite Hreq. fold n.
  rewrite (DivRoundUp_self n Hn Hfit). change (1 >? 1) with false. cbn [andb].
  fold lanes.
  pose proof (RoundUpToNearestMultiple_exact n lanes Hlanes ltac:(lia) Hround).
  lia.
Qed.

Lemma fully_connected_block (b : BlockConfig) (capabilities : HardwareCapabilities)
    (upsampleType : UpsampleType) :
  IsBlockConfigCompatible b capabilities FULLY_CONNECTED upsampleType = true ->
  m_BlockWidth b = 8 /\ m_BlockHeight b = 8.
Proof.
  unfold IsBlockConfigCompatible. destruct (_ >? _); [discriminate |]. simpl.
  destruct (Z.eqb_spec (m_BlockWidth b) 8); [| discriminate].
  destruct (Z.eqb_spec (m_BlockHeight b) 8); [| discriminate]. auto.
Qed.

(** ** Outcomes of a sequence of trials *)

Section TrialLemmas.

Context {E : Externals}.

Lemma orElse_giveUp (t : Trial) : orElse t giveUp = t.
Proof. destruct t as [a | [[[] s] c]]; reflexivity. Qed.

Lemma orElse_false (t : Trial) rest s c :
  orElse t rest = Returns (false, s, c) ->
  exists s0 c0, t = Returns (false, s0, c0) /\ rest s0 c0 = Returns (false, s, c).
Proof.
  destruct t as [a | [[[] s0] c0]]; simpl; intros H; try discriminate. eauto.
Qed.

(** A successful search returns what one of its trials returned, or what
    followed them. *)
Lemma tryEach_true_in {P : Type} (T : P -> SramAllocator -> TensorConfig -> Trial)
    l rest s c s' c' :
  tryEach T l rest s c = Returns (true, s', c') ->
  (exists p s0 c0, In p l /\ T p s0 c0 = Returns (true, s', c'))
  \/ (exists s0 c0, rest s0 c0 = Returns (true, s', c')).
Proof.
  revert s c. induction l as [| q l IH]; simpl; intros s c H.
  - right. eauto.
  - apply orElse_true in H. destruct H as [H | (s0 & c0 & _ & H)].
    + left. exists q, s, c. split; [left; reflexivity | exact H].
    + destruct (IH _ _ H) as [(p & s1 & c1 & Hin & Hp) | Hr].
      * left. exists p, s1, c1. split; [right; exact Hin | exact Hp].
      * right. exact Hr.
Qed.

(** When no failing trial touches the state, a failing search does not
    either. *)
Lemma tryEach_false_untouched {P : Type}
    (T : P -> SramAllocator -> TensorConfig -> Trial) l rest :
  (forall p, In p l -> forall s c s' c',
        T p s c = Returns (false, s', c') -> s' = s /\ c' = c) ->
  (forall s c s' c', rest s c = Returns (false, s', c') -> s' = s /\ c' = c) ->
  forall s c s' c',
    tryEach T l rest s c = Returns (false, s', c') -> s' = s /\ c' = c.
Proof.
  intros HT HR. induction l as [| q l IH]; simpl; intros s c s' c' H.
  - eapply HR; eauto.
  - apply orElse_false in H. destruct H as (s0 & c0 & Hq & H).
    apply (HT q (or_introl eq_refl)) in Hq. destruct Hq as [-> ->].
    eapply IH; [| exact H]. intros p Hp. apply HT. right; exact Hp.
Qed.

Lemma giveUp_false s c s' c' :
  giveUp s c = Returns (false, s', c') -> s' = s /\ c' = c.
Proof. unfold giveUp. intros H. inversion H. auto. Qed.

(** A search that stops on an assertion stops in one of its trials, or in
    what follows them. *)
Lemma tryEach_assert_in {P : Type} (T : P -> SramAllocator -> TensorConfig -> Trial)
    l rest s c x :
  tryEach T l rest s c = AssertFails x ->
  (exists p s0 c0, In p l /\ T p s0 c0 = AssertFails x)
  \/ (exists s0 c0, rest s0 c0 = AssertFails x).
Proof.
  revert s c. induction l as [| q l IH]; simpl; intros s c H.
  - right. eauto.
  - apply orElse_assert in H. destruct H as [H | (s0 & c0 & _ & H)].
    + left. exists q, s, c. split; [left; reflexivity | exact H].
    + destruct (IH _ _ H) as [(p & s1 & c1 & Hin & Hp) | Hr].
      * left. exists p, s1, c1. split; [right; exact Hin | exact Hp].
      * right. exact Hr.
Qed.


End TrialLemmas.

(** ** The searches and the entry point *)

Section SearchOutcomes.

Context {E : Externals}.

Variable mceOperation : MceOperation.
Variable upsampleType : UpsampleType.
Variable inputShape : TensorShape.
Variable outputShape : TensorShape.
Variable weightsFormat : DataFormat.
Variable weightsShape : TensorShape.
Variable pad : Z * Z.
Variable allowedBlockConfigs : list BlockConfig.
Variable capabilities : HardwareCapabilities.
Variable mceShapeMultiplier : ShapeMultiplier.
Variable pleShapeMultiplier : ShapeMultiplier.
Variable inputStaticAndOffset : bool * Z.
Variable depthMax : Z.

Local Abbreviation TryConfZXY :=
  (ZXY_TryConf TryStripeShapes mceOperation inputShape outputShape weightsFormat
     weightsShape pad capabilities mceShapeMultiplier pleShapeMultiplier
     inputStaticAndOffset depthMax).
Local Abbreviation TryConfXY :=
  (XY_TryConf TryStripeShapes mceOperation inputShape outputShape weightsFormat
     weightsShape pad capabilities mceShapeMultiplier pleShapeMultiplier
     inputStaticAndOffset depthMax).
Local Abbreviation tryReloadings :=
  (ZXY_tryReloadings TryStripeShapes mceOperation inputShape outputShape weightsFormat
     weightsShape pad capabilities mceShapeMultiplier pleShapeMultiplier
     inputStaticAndOffset depthMax).
Local Abbreviation paramsZXY :=
  (ZXY_paramsList mceOperation upsampleType inputShape allowedBlockConfigs
     capabilities pleShapeMultiplier).
Local Abbreviation paramsXY :=
  (XY_paramsList mceOperation upsampleType inputShape allowedBlockConfigs
     capabilities pleShapeMultiplier).
Local Abbreviation searchZXY :=
  (TryInputZXYOutputXYZ mceOperation upsampleType inputShape outputShape
     weightsFormat weightsShape pad allowedBlockConfigs capabilities
     mceShapeMultiplier pleShapeMultiplier inputStaticAndOffset depthMax).
Local Abbreviation searchXY :=
  (TryInputXYOutputXYZ mceOperation upsampleType inputShape outputShape
     weightsFormat weightsShape pad allowedBlockConfigs capabilities
     mceShapeMultiplier pleShapeMultiplier inputStaticAndOffset depthMax).
Local Abbreviation strategyX :=
  (TryStrategyX mceOperation upsampleType inputShape outputShape
     weightsFormat weightsShape pad allowedBlockConfigs capabilities
     mceShapeMultiplier pleShapeMultiplier inputStaticAndOffset depthMax).
Local Abbreviation argsOf p allowInputBuffering avoidInputReloading weightsReloading :=
  (mkArgs mceOperation
     (mkShape 1 (params_outputStripeHeight p) (params_outputStripeWidth p)
              (params_outputStripeChannel p))
     (params_inputStripeChannel p) inputShape outputShape weightsFormat
     weightsShape capabilities mceShapeMultiplier pleShapeMultiplier pad
     inputStaticAndOffset depthMax allowInputBuffering avoidInputReloading
     (params_activationCompression p) weightsReloading).
Local Abbreviation argsOfXY p allowInputBuffering :=
  (mkArgs mceOperation
     (mkShape 1 (xy_outputStripeHeight p) (xy_outputStripeWidth p)
              (xy_outputStripeChannel p))
     (xy_inputStripeChannel p) inputShape outputShape weightsFormat
     weightsShape capabilities mceShapeMultiplier pleShapeMultiplier pad
     inputStaticAndOffset depthMax allowInputBuffering false false NO_RELOADING).

(** *** Where the candidates come from *)

Lemma ZXY_paramsList_block p :
  In p paramsZXY ->
  In (mkBlock (params_blockWidth p) (params_blockHeight p)) allowedBlockConfigs
  /\ IsBlockConfigCompatible (mkBlock (params_blockWidth p) (params_blockHeight p))
       capabilities mceOperation upsampleType = true.
Proof.
  unfold ZXY_paramsList. intros Hp.
  apply in_flat_map in Hp. destruct Hp as (compression & _ & Hp).
  apply in_flat_map in Hp. destruct Hp as (blockConfig & Hb & Hp).
  apply (proj1 (sortBlockConfigs_in _ _)) in Hb.
  destruct (IsBlockConfigCompatible blockConfig capabilities mceOperation upsampleType)
    eqn:Hcompat; [| contradiction].
  cbn [negb] in Hp. apply in_map_iff in Hp. destruct Hp as (k & <- & _).
  destruct blockConfig as [w h].
  cbn [params_blockWidth params_blockHeight m_BlockWidth m_BlockHeight].
  split; assumption.
Qed.

Lemma XY_paramsList_block p :
  In p paramsXY ->
  In (mkBlock (xy_blockWidth p) (xy_blockHeight p)) allowedBlockConfigs
  /\ IsBlockConfigCompatible (mkBlock (xy_blockWidth p) (xy_blockHeight p))
       capabilities mceOperation upsampleType = true
  /\ xy_inputStripeChannel p = GetChannels inputShape.
Proof.
  unfold XY_paramsList. intros Hp.
  apply in_flat_map in Hp. destruct Hp as (blockConfig & Hb & Hp).
  apply (proj1 (sortBlockConfigs_in _ _)) in Hb.
  destruct (IsBlockConfigCompatible blockConfig capabilities mceOperation upsampleType)
    eqn:Hcompat; [| contradiction].
  cbn [negb] in Hp. destruct Hp as [<- | []].
  destruct blockConfig as [w h].
  cbn [xy_blockWidth xy_blockHeight xy_inputStripeChannel m_BlockWidth m_BlockHeight].
  repeat split; assumption.
Qed.

Lemma no_compatible_block_no_candidates :
  (forall b, In b allowedBlockConfigs ->
             IsBlockConfigCompatible b capabilities mceOperation upsampleType = false) ->
  paramsZXY = [] /\ paramsXY = [].
Proof.
  intros Hnone.
  assert (Hsorted : forall b, In b (sortBlockConfigs allowedBlockConfigs) ->
            IsBlockConfigCompatible b capabilities mceOperation upsampleType = false).
  { intros b Hb. apply Hnone. apply (proj1 (sortBlockConfigs_in _ _)). exact Hb. }
  split.
  - unfold ZXY_paramsList. apply flat_map_nil. intros compression _.
    apply flat_map_nil. intros b Hb. rewrite (Hsorted b Hb). reflexivity.
  - unfold XY_paramsList. apply flat_map_nil. intros b Hb.
    rewrite (Hsorted b Hb). reflexivity.
Qed.

(** *** What a trial returns *)

Lemma ZXY_TryConf_true_inv p a b wr s c s' c' :
  TryConfZXY p a b wr s c = Returns (true, s', c') ->
  exists c1,
    TryStripeShapes (argsOf p a b wr) s c = Returns (true, s', c1)
    /\ GetChannels (stripeShape (inputAllocation c1)) < GetChannels inputShape
    /\ c' = setBlockAndStrategy c1 (params_blockWidth p) (params_blockHeight p).
Proof.
  unfold ZXY_TryConf.
  destruct (negb (negb b || a)); [discriminate |].
  destruct (TryStripeShapes (argsOf p a b wr) s c) as [x | [[[] s1] c1]];
    try discriminate.
  destruct (Z.ltb_spec (GetChannels (stripeShape (inputAllocation c1)))
                       (GetChannels inputShape)) as [Hlt | Hlt];
    intros H; inversion H; subst.
  exists c1. auto.
Qed.

Lemma XY_TryConf_true_inv p a s c s' c' :
  TryConfXY p a s c = Returns (true, s', c') ->
  exists c1,
    TryStripeShapes (argsOfXY p a) s c = Returns (true, s', c1)
    /\ c' = setBlockAndStrategy c1 (xy_blockWidth p) (xy_blockHeight p).
Proof.
  unfold XY_TryConf.
  destruct (TryStripeShapes (argsOfXY p a) s c) as [x | [[[] s1] c1]];
    intros H; inversion H; subst.
  exists c1. auto.
Qed.

Lemma XY_TryConf_false_untouched p a s c s' c' :
  TryConfXY p a s c = Returns (false, s', c') -> s' = s /\ c' = c.
Proof.
  unfold XY_TryConf.
  destruct (TryStripeShapes (argsOfXY p a) s c) as [x | [[[] s1] c1]] eqn:Hr;
    intros H; inversion H; subst.
  apply TryStripeShapes_returns in Hr.
  destruct Hr as [(_ & -> & -> & _) | (Hb & _)]; [auto | discriminate].
Qed.

(** *** What a search returns *)

Lemma ZXY_tryReloadings_true_in l options s c s' c' :
  tryReloadings l options s c = Returns (true, s', c') ->
  exists p a b wr s0 c0,
    In p l /\ TryConfZXY p a b wr s0 c0 = Returns (true, s', c').
Proof.
  revert s c. induction options as [| mode later IH]; simpl; intros s c H.
  - exfalso. eapply giveUp_not_true; eauto.
  - apply tryEach_true_in in H.
    destruct H as [(p & s0 & c0 & Hp & H) | (s0 & c0 & H)]; [eauto 10 |].
    apply tryEach_true_in in H.
    destruct H as [(p & s1 & c1 & Hp & H) | (s1 & c1 & H)]; [eauto 10 |].
    apply tryEach_true_in in H.
    destruct H as [(p & s2 & c2 & Hp & H) | (s2 & c2 & H)]; [eauto 10 |].
    eapply IH; eauto.
Qed.

Lemma ZXY_search_true_in s c s' c' :
  searchZXY s c = Returns (true, s', c') ->
  fst inputStaticAndOffset = false
  /\ exists p a b wr s0 c0 c1,
       In p paramsZXY
       /\ TryStripeShapes (argsOf p a b wr) s0 c0 = Returns (true, s', c1)
       /\ GetChannels (stripeShape (inputAllocation c1)) < GetChannels inputShape
       /\ c' = setBlockAndStrategy c1 (params_blockWidth p) (params_blockHeight p).
Proof.
  unfold TryInputZXYOutputXYZ, TryInputZXYOutputXYZ_over.
  destruct (fst inputStaticAndOffset); [discriminate |].
  destruct (length paramsZXY =? 0)%nat; [discriminate |].
  intros H. split; [reflexivity |].
  apply ZXY_tryReloadings_true_in in H.
  destruct H as (p & a & b & wr & s0 & c0 & Hp & H).
  apply ZXY_TryConf_true_inv in H. destruct H as (c1 & Hr & Hlt & ->).
  exists p, a, b, wr, s0, c0, c1. auto.
Qed.

Lemma XY_search_true_in s c s' c' :
  searchXY s c = Returns (true, s', c') ->
  fst inputStaticAndOffset = false
  /\ mceOperation = FULLY_CONNECTED
  /\ exists p a s0 c0 c1,
       In p paramsXY
       /\ TryStripeShapes (argsOfXY p a) s0 c0 = Returns (true, s', c1)
       /\ c' = setBlockAndStrategy c1 (xy_blockWidth p) (xy_blockHeight p).
Proof.
  unfold TryInputXYOutputXYZ, TryInputXYOutputXYZ_over.
  destruct (fst inputStaticAndOffset); [discriminate |].
  destruct (MceOperation_eqb mceOperation FULLY_CONNECTED) eqn:Hfc;
    cbn [negb]; [| discriminate].
  apply MceOperation_eqb_eq in Hfc.
  destruct (length paramsXY =? 0)%nat; [discriminate |].
  intros H. split; [reflexivity |]. split; [exact Hfc |].
  apply tryEach_true_in in H.
  destruct H as [(p & s0 & c0 & Hp & H) | (s0 & c0 & H)].
  - apply XY_TryConf_true_inv in H. destruct H as (c1 & Hr & ->).
    exists p, true, s0, c0, c1. auto.
  - apply tryEach_true_in in H.
    destruct H as [(p & s1 & c1 & Hp & H) | (s1 & c1 & H)].
    + apply XY_TryConf_true_inv in H. destruct H as (c2 & Hr & ->).
      exists p, false, s1, c1, c2. auto.
    + exfalso. eapply giveUp_not_true; eauto.
Qed.

Lemma XY_search_false_untouched s c s' c' :
  searchXY s c = Returns (false, s', c') -> s' = s /\ c' = c.
Proof.
  unfold TryInputXYOutputXYZ, TryInputXYOutputXYZ_over.
  destruct (fst inputStaticAndOffset); [intros H; inversion H; auto |].
  destruct (negb _); [intros H; inversion H; auto |].
  destruct (length paramsXY =? 0)%nat; [intros H; inversion H; auto |].
  apply tryEach_false_untouched.
  - intros p _ s0 c0 s1 c1. apply XY_TryConf_false_untouched.
  - apply tryEach_false_untouched.
    + intros p _ s0 c0 s1 c1. apply XY_TryConf_false_untouched.
    + intros s0 c0 s1 c1. apply giveUp_false.
Qed.

(** *** A fixed input, and no usable block config *)

(** X2. When the input tensor is fixed at a caller-supplied offset, the
    channel-split search and the entry point return failure at once, with the
    allocator and the configuration untouched. *)
Theorem fixed_input_is_never_tried s c :
  fst inputStaticAndOffset = true ->
  TryInputZXYOutputXYZ mceOperation upsampleType inputShape outputShape
    weightsFormat weightsShape pad allowedBlockConfigs capabilities
    mceShapeMultiplier pleShapeMultiplier inputStaticAndOffset depthMax s c
  = Returns (false, s, c)
  /\ TryStrategyX mceOperation upsampleType inputShape outputShape
       weightsFormat weightsShape pad allowedBlockConfigs capabilities
       mceShapeMultiplier pleShapeMultiplier inputStaticAndOffset depthMax s c
     = Returns (false, s, c).
Proof.
  intros Hstatic.
  unfold TryStrategyX, TryStrategyX_over, TryInputXYOutputXYZ_over,
    TryInputZXYOutputXYZ, TryInputZXYOutputXYZ_over.
  rewrite Hstatic. simpl. auto.
Qed.

(** X3. When no allowed block config is compatible with the hardware, the
    operator and the upsampling mode (in particular when none is allowed),
    strategy X fails without running a trial and without touching the
    state. *)
Theorem no_compatible_block_no_strategy s c :
  (forall b, In b allowedBlockConfigs ->
             IsBlockConfigCompatible b capabilities mceOperation upsampleType = false) ->
  searchXY s c = Returns (false, s, c)
  /\ searchZXY s c = Returns (false, s, c)
  /\ strategyX s c = Returns (false, s, c).
Proof.
  intros Hnone. destruct (no_compatible_block_no_candidates Hnone) as [Hz Hx].
  assert (HXY : searchXY s c = Returns (false, s, c)).
  { unfold TryInputXYOutputXYZ, TryInputXYOutputXYZ_over.
    destruct (fst inputStaticAndOffset); [reflexivity |].
    destruct (negb _); [reflexivity |]. rewrite Hx. reflexivity. }
  assert (HZXY : searchZXY s c = Returns (false, s, c)).
  { unfold TryInputZXYOutputXYZ, TryInputZXYOutputXYZ_over.
    destruct (fst inputStaticAndOffset); [reflexivity |].
    rewrite Hz. reflexivity. }
  split; [exact HXY |]. split; [exact HZXY |].
  unfold TryStrategyX, TryStrategyX_over.
  unfold TryInputXYOutputXYZ in HXY. rewrite HXY. simpl.
  unfold TryInputZXYOutputXYZ in HZXY. rewrite HZXY. reflexivity.
Qed.

Lemma fully_connected_upsampling_incompatible b :
  mceOperation = FULLY_CONNECTED -> upsampleType <> OFF ->
  IsBlockConfigCompatible b capabilities mceOperation upsampleType = false.
Proof.
  intros -> Hup. unfold IsBlockConfigCompatible.
  apply IsUpsampling_true in Hup. rewrite Hup.
  destruct (_ >? _); [reflexivity |]. simpl.
  destruct (Z.eqb_spec (m_BlockWidth b) 8) as [Hw | Hw]; [| reflexivity].
  destruct (Z.eqb_spec (m_BlockHeight b) 8) as [Hh | Hh]; [| reflexivity].
  simpl. rewrite Hw. reflexivity.
Qed.

(** X4. A fully connected operator with upsampling can never use strategy
    X: the filter wants an 8x8 block for the one and a 16x16 block for the
    other, so every search fails whatever block configs are allowed. *)
Theorem fully_connected_with_upsampling_fails s c :
  mceOperation = FULLY_CONNECTED -> upsampleType <> OFF ->
  TryStrategyX mceOperation upsampleType inputShape outputShape
    weightsFormat weightsShape pad allowedBlockConfigs capabilities
    mceShapeMultiplier pleShapeMultiplier inputStaticAndOffset depthMax s c
  = Returns (false, s, c).
Proof.
  intros Hfc Hup.
  assert (Hnone : forall b, In b allowedBlockConfigs ->
            IsBlockConfigCompatible b capabilities mceOperation upsampleType = false)
    by (intros b _; apply fully_connected_upsampling_incompatible; assumption).
  destruct (no_compatible_block_no_candidates Hnone) as [Hz Hx].
  unfold TryStrategyX, TryStrategyX_over, TryInputXYOutputXYZ_over,
    TryInputZXYOutputXYZ_over.
  rewrite Hz, Hx.
  destruct (fst inputStaticAndOffset); [reflexivity |].
  destruct (negb _); reflexivity.
Qed.

(** *** The whole-channel search *)

(** X5. The whole-channel search is failure-atomic: whenever it returns
    failure, the allocator and the configuration are the ones it was
    given. *)
Theorem TryInputXYOutputXYZ_failure_is_atomic s c s' c' :
  TryInputXYOutputXYZ mceOperation upsampleType inputShape outputShape
    weightsFormat weightsShape pad allowedBlockConfigs capabilities
    mceShapeMultiplier pleShapeMultiplier inputStaticAndOffset depthMax s c
  = Returns (false, s', c') ->
  s' = s /\ c' = c.
Proof. apply XY_search_false_untouched. Qed.

(** X6. The entry point tries the whole-channel search first and falls back
    to the channel-split search on the untouched state: whatever the
    whole-channel search returns other than failure is the result, and after
    its failure the result is that of the channel-split search run on the
    caller's allocator and configuration. For an operator that is not fully
    connected the entry point is the channel-split search. *)
Theorem TryStrategyX_falls_back s c :
  let whole :=
    TryInputXYOutputXYZ mceOperation upsampleType inputShape outputShape
      weightsFormat weightsShape pad allowedBlockConfigs capabilities
      mceShapeMultiplier pleShapeMultiplier inputStaticAndOffset depthMax s c in
  let split :=
    TryInputZXYOutputXYZ mceOperation upsampleType inputShape outputShape
      weightsFormat weightsShape pad allowedBlockConfigs capabilities
      mceShapeMultiplier pleShapeMultiplier inputStaticAndOffset depthMax s c in
  let entry :=
    TryStrategyX mceOperation upsampleType inputShape outputShape
      weightsFormat weightsShape pad allowedBlockConfigs capabilities
      mceShapeMultiplier pleShapeMultiplier inputStaticAndOffset depthMax s c in
  match whole with
  | Returns (false, _, _) => entry = split
  | r => entry = r
  end
  /\ (mceOperation <> FULLY_CONNECTED -> entry = split).
Proof.
  intros whole split entry. subst whole split entry.
  assert (Hfail : forall s1 c1, searchXY s c = Returns (false, s1, c1) ->
                                strategyX s c = searchZXY s c).
  { intros s1 c1 H. pose proof (XY_search_false_untouched _ _ _ _ H) as [-> ->].
    unfold TryStrategyX, TryStrategyX_over.
    unfold TryInputXYOutputXYZ in H. rewrite H. simpl.
    apply orElse_giveUp. }
  split.
  - destruct (searchXY s c) as [a | [[[] s1] c1]] eqn:H.
    + unfold TryStrategyX, TryStrategyX_over.
      unfold TryInputXYOutputXYZ in H. rewrite H. reflexivity.
    + unfold TryStrategyX, TryStrategyX_over.
      unfold TryInputXYOutputXYZ in H. rewrite H. reflexivity.
    + eapply Hfail. reflexivity.
  - intros Hfc. apply (Hfail s c).
    unfold TryInputXYOutputXYZ, TryInputXYOutputXYZ_over.
    destruct (fst inputStaticAndOffset); [reflexivity |].
    destruct (MceOperation_eqb mceOperation FULLY_CONNECTED) eqn:Heq;
      [apply MceOperation_eqb_eq in Heq; contradiction | reflexivity].
Qed.


(** X7. A configuration returned by the whole-channel search comes from a
    fully connected operator with HWIO weights and a movable input, carries
    strategy X and an allowed 8x8 block, and has brick-group-aligned input and
    output stripes. *)
Theorem TryInputXYOutputXYZ_success s c s' c' :
  searchXY s c = Returns (true, s', c') ->
  mceOperation = FULLY_CONNECTED
  /\ weightsFormat = HWIO
  /\ fst inputStaticAndOffset = false
  /\ strategy c' = STRATEGY_X
  /\ blockWidth c' = 8 /\ blockHeight c' = 8
  /\ In (mkBlock 8 8) allowedBlockConfigs
  /\ GetHeight (stripeShape (inputAllocation c'))
     mod GetHeight (GetBrickGroupShape capabilities) = 0
  /\ GetWidth (stripeShape (inputAllocation c'))
     mod GetWidth (GetBrickGroupShape capabilities) = 0
  /\ GetHeight (stripeShape (outputAllocation c'))
     mod GetHeight (GetBrickGroupShape capabilities) = 0
  /\ GetWidth (stripeShape (outputAllocation c'))
     mod GetWidth (GetBrickGroupShape capabilities) = 0.
Proof.
  intros H. apply XY_search_true_in in H.
  destruct H as (Hstatic & Hfc & p & a & s0 & c0 & c1 & Hp & Hr & ->).
  destruct (XY_paramsList_block p Hp) as (Hin & Hcompat & _).
  rewrite Hfc in Hcompat. apply fully_connected_block in Hcompat.
  cbn [m_BlockWidth m_BlockHeight] in Hcompat. destruct Hcompat as [Hw Hh].
  rewrite Hw, Hh in Hin.
  destruct (accepted_allocations _ _ _ _ _ Hr) as (Hi & Ho & _).
  apply TryStripeShapes_returns in Hr.
  destruct Hr as [(Hb & _) | (_ & Hih & Hiw & Hhwio & _ & Hoh & How & _)];
    [discriminate |].
  unfold isHwio in Hhwio. cbn [arg_weightsFormat] in Hhwio.
  assert (Hf : weightsFormat = HWIO)
    by (destruct weightsFormat; simpl in Hhwio; congruence).
  cbn [setBlockAndStrategy strategy blockWidth blockHeight inputAllocation
         outputAllocation].
  rewrite Hi, Ho. repeat (split; [assumption || reflexivity |]). exact How.
Qed.

(** X8. The whole-channel search never returns a channel-split stripe: when
    the lane granule is positive and the rounding stays within 32 bits, the
    input stripe of a returned configuration holds at least all the input
    channels. *)
Theorem TryInputXYOutputXYZ_whole_depth s c s' c' :
  let n := GetChannels inputShape in
  let lanes := mul32 (GetNumberOfSrams capabilities)
                     (channelStride inputShape weightsShape capabilities) in
  1 <= n -> 2 * n <= 2 ^ 32 -> 0 < lanes -> n + lanes <= 2 ^ 32 ->
  searchXY s c = Returns (true, s', c') ->
  n <= GetChannels (stripeShape (inputAllocation c')).
Proof.
  intros n lanes Hn Hfit Hlanes Hround H. apply XY_search_true_in in H.
  destruct H as (_ & _ & p & a & s0 & c0 & c1 & Hp & Hr & ->).
  destruct (XY_paramsList_block p Hp) as (_ & _ & Hreq).
  destruct (accepted_allocations _ _ _ _ _ Hr) as (Hi & _).
  cbn [setBlockAndStrategy inputAllocation]. rewrite Hi.
  cbn [inputStripe GetChannels dim3].
  apply (inputStripeChannels_whole (argsOfXY p a)); assumption.
Qed.

(** X9. In the whole-channel search the candidates with input buffering
    come first: if some candidate would succeed with input buffering from the
    initial state, the search returns the result of a buffered trial run from
    that state. *)
Theorem TryInputXYOutputXYZ_buffered_first p s c s1 c1 :
  fst inputStaticAndOffset = false ->
  mceOperation = FULLY_CONNECTED ->
  In p (XY_paramsList mceOperation upsampleType inputShape allowedBlockConfigs
          capabilities pleShapeMultiplier) ->
  TryConfXY p true s c = Returns (true, s1, c1) ->
  exists q s' c',
    In q (XY_paramsList mceOperation upsampleType inputShape allowedBlockConfigs
            capabilities pleShapeMultiplier)
    /\ TryConfXY q true s c = Returns (true, s', c')
    /\ TryInputXYOutputXYZ mceOperation upsampleType inputShape outputShape
         weightsFormat weightsShape pad allowedBlockConfigs capabilities
         mceShapeMultiplier pleShapeMultiplier inputStaticAndOffset depthMax s c
       = Returns (true, s', c').
Proof.
  intros Hstatic Hfc Hp Hacc.
  assert (Hhwio : weightsFormat = HWIO).
  { apply XY_TryConf_true_inv in Hacc. destruct Hacc as (c2 & Hr & _).
    apply TryStripeShapes_returns in Hr.
    destruct Hr as [(Hb & _) | (_ & _ & _ & Hh & _)]; [discriminate |].
    unfold isHwio in Hh. cbn [arg_weightsFormat] in Hh.
    destruct weightsFormat; simpl in Hh; congruence. }
  destruct (tryEach_first_success (fun q => TryConfXY q true) paramsXY s c)
    as (q & s' & c' & Hq & Hrun & Hres).
  - intros q _. unfold XY_TryConf.
    destruct (TryStripeShapes (argsOfXY q true) s c) as [x | [[[] s2] c2]] eqn:Hr.
    + exfalso. apply TryStripeShapes_asserts in Hr.
      destruct Hr as [[_ Hr] | (_ & Hc & _)].
      * unfold isHwio in Hr. cbn [arg_weightsFormat] in Hr.
        rewrite Hhwio in Hr. discriminate.
      * discriminate.
    + right. eauto.
    + left. apply TryStripeShapes_returns in Hr.
      destruct Hr as [(_ & -> & -> & _) | (Hb & _)]; [reflexivity | discriminate].
  - exists p, s1, c1. split; assumption.
  - exists q, s', c'. split; [exact Hq |]. split; [exact Hrun |].
    unfold TryInputXYOutputXYZ, TryInputXYOutputXYZ_over.
    rewrite Hstatic.
    destruct (MceOperation_eqb mceOperation FULLY_CONNECTED) eqn:Heq;
      [| rewrite Hfc in Heq; discriminate].
    cbn [negb].
    destruct paramsXY as [| p0 l0] eqn:Hlist; [contradiction |].
    cbn [length Nat.eqb]. apply Hres.
Qed.


(** *** The channel-split search *)

Lemma ZXY_candidate_partial_iff p a b wr :
  GetChannels inputShape < 2 ^ 32 ->
  mul32 (GetNumberOfSrams capabilities)
        (channelStride inputShape weightsShape capabilities)
  <= mul32 (GetChannels (GetBrickGroupShape capabilities))
           (channelStride inputShape weightsShape capabilities) ->
  In p paramsZXY ->
  (inputStripeChannels (argsOf p a b wr) < GetChannels inputShape
   <-> mul32 (GetNumberOfSrams capabilities)
             (channelStride inputShape weightsShape capabilities)
       < GetChannels inputShape).
Proof.
  intros Hn Hgran Hp.
  destruct (ZXY_candidate_request _ _ _ _ _ _ p Hp) as [Hx Hhalf].
  apply (inputStripeChannels_partial_iff (argsOf p a b wr)); assumption.
Qed.

Lemma ZXY_TryConf_false_untouched p a b wr s c s' c' :
  GetChannels inputShape < 2 ^ 32 ->
  mul32 (GetNumberOfSrams capabilities)
        (channelStride inputShape weightsShape capabilities)
  <= mul32 (GetChannels (GetBrickGroupShape capabilities))
           (channelStride inputShape weightsShape capabilities) ->
  mul32 (GetNumberOfSrams capabilities)
        (channelStride inputShape weightsShape capabilities)
  < GetChannels inputShape ->
  In p paramsZXY ->
  TryConfZXY p a b wr s c = Returns (false, s', c') -> s' = s /\ c' = c.
Proof.
  intros Hn Hgran Hlanes Hp.
  pose proof (proj2 (ZXY_candidate_partial_iff p a b wr Hn Hgran Hp) Hlanes)
    as Hpartial.
  unfold ZXY_TryConf.
  destruct (negb (negb b || a)); [discriminate |].
  destruct (TryStripeShapes (argsOf p a b wr) s c) as [x | [[[] s1] c1]] eqn:Hr;
    try discriminate.
  - destruct (accepted_allocations _ _ _ _ _ Hr) as (Hi & _).
    rewrite Hi. cbn [inputStripe GetChannels dim3].
    apply Z.ltb_lt in Hpartial. rewrite Hpartial. discriminate.
  - intros H. inversion H; subst.
    apply TryStripeShapes_returns in Hr.
    destruct Hr as [(_ & -> & -> & _) | (Hb & _)]; [auto | discriminate].
Qed.

(** X10. On hardware whose lane granule does not exceed its brick-group
    granule, when the input has more channels than the lane granule the
    channel-split search and the entry point are failure-atomic: whenever
    either returns failure, the allocator and the configuration are the ones
    it was given. *)
Theorem TryInputZXYOutputXYZ_failure_is_atomic_above_lanes s c s' c' :
  GetChannels inputShape < 2 ^ 32 ->
  mul32 (GetNumberOfSrams capabilities)
        (channelStride inputShape weightsShape capabilities)
  <= mul32 (GetChannels (GetBrickGroupShape capabilities))
           (channelStride inputShape weightsShape capabilities) ->
  mul32 (GetNumberOfSrams capabilities)
        (channelStride inputShape weightsShape capabilities)
  < GetChannels inputShape ->
  (searchZXY s c = Returns (false, s', c') -> s' = s /\ c' = c)
  /\ (strategyX s c = Returns (false, s', c') -> s' = s /\ c' = c).
Proof.
  intros Hn Hgran Hlanes.
  assert (HZXY : forall s c s' c',
             searchZXY s c = Returns (false, s', c') -> s' = s /\ c' = c).
  { clear s c s' c'. intros s c s' c'.
    unfold TryInputZXYOutputXYZ, TryInputZXYOutputXYZ_over.
    destruct (fst inputStaticAndOffset); [intros H; inversion H; auto |].
    destruct (length paramsZXY =? 0)%nat; [intros H; inversion H; auto |].
    generalize weightsReloadingOrder. intros options.
    revert s c s' c'. induction options as [| mode later IH]; simpl.
    - intros s c s' c'. apply giveUp_false.
    - apply tryEach_false_untouched;
        [intros p Hp s0 c0 s1 c1; apply ZXY_TryConf_false_untouched; assumption |].
      apply tryEach_false_untouched;
        [intros p Hp s0 c0 s1 c1; apply ZXY_TryConf_false_untouched; assumption |].
      apply tryEach_false_untouched;
        [intros p Hp s0 c0 s1 c1; apply ZXY_TryConf_false_untouched; assumption |].
      exact IH. }
  split; [apply HZXY |].
  unfold TryStrategyX, TryStrategyX_over. intros H.
  apply orElse_false in H. destruct H as (s0 & c0 & Hxy & H).
  apply XY_search_false_untouched in Hxy. destruct Hxy as [-> ->].
  rewrite orElse_giveUp in H. apply HZXY. exact H.
Qed.

(** X11. On hardware whose lane granule does not exceed its brick-group
    granule, an input with at most as many channels as the lane granule is
    never channel-split: every candidate rounds back up to a full-depth
    stripe and the channel-split search cannot return success. *)
Theorem TryInputZXYOutputXYZ_needs_more_than_lanes s c s' c' :
  GetChannels inputShape < 2 ^ 32 ->
  mul32 (GetNumberOfSrams capabilities)
        (channelStride inputShape weightsShape capabilities)
  <= mul32 (GetChannels (GetBrickGroupShape capabilities))
           (channelStride inputShape weightsShape capabilities) ->
  GetChannels inputShape
  <= mul32 (GetNumberOfSrams capabilities)
           (channelStride inputShape weightsShape capabilities) ->
  searchZXY s c <> Returns (true, s', c').
Proof.
  intros Hn Hgran Hsmall H. apply ZXY_search_true_in in H.
  destruct H as (_ & p & a & b & wr & s0 & c0 & c1 & Hp & Hr & Hlt & _).
  destruct (accepted_allocations _ _ _ _ _ Hr) as (Hi & _).
  rewrite Hi in Hlt. cbn [inputStripe GetChannels dim3] in Hlt.
  apply (ZXY_candidate_partial_iff p a b wr Hn Hgran Hp) in Hlt. lia.
Qed.

(** *** Weights that are not HWIO, and assertions *)

Lemma resolver_success_needs_hwio (args : ResolverArgs) s c s' c' :
  TryStripeShapes args s c = Returns (true, s', c') ->
  arg_weightsFormat args = HWIO.
Proof.
  intros Hr. apply TryStripeShapes_returns in Hr.
  destruct Hr as [(Hb & _) | (_ & _ & _ & Hh & _)]; [discriminate |].
  unfold isHwio in Hh. destruct (arg_weightsFormat args); simpl in Hh; congruence.
Qed.

Lemma strategyX_true_in s c s' c' :
  strategyX s c = Returns (true, s', c') ->
  exists s0 c0, searchXY s0 c0 = Returns (true, s', c')
                \/ searchZXY s0 c0 = Returns (true, s', c').
Proof.
  unfold TryStrategyX, TryStrategyX_over. intros H.
  apply orElse_true in H. destruct H as [H | (s0 & c0 & _ & H)].
  - exists s, c. left. exact H.
  - rewrite orElse_giveUp in H. exists s0, c0. right. exact H.
Qed.

(** X12. With weights in any layout other than HWIO strategy X never
    succeeds: the resolver rejects the candidate before line 178 or stops on
    the assertion of line 191. *)
Theorem TryStrategyX_needs_hwio s c s' c' :
  weightsFormat <> HWIO ->
  TryStrategyX mceOperation upsampleType inputShape outputShape
    weightsFormat weightsShape pad allowedBlockConfigs capabilities
    mceShapeMultiplier pleShapeMultiplier inputStaticAndOffset depthMax s c
  <> Returns (true, s', c').
Proof.
  intros Hfmt H. apply strategyX_true_in in H.
  destruct H as (s0 & c0 & [H | H]).
  - apply XY_search_true_in in H.
    destruct H as (_ & _ & p & a & s1 & c1 & c2 & _ & Hr & _).
    apply resolver_success_needs_hwio in Hr. exact (Hfmt Hr).
  - apply ZXY_search_true_in in H.
    destruct H as (_ & p & a & b & wr & s1 & c1 & c2 & _ & Hr & _).
    apply resolver_success_needs_hwio in Hr. exact (Hfmt Hr).
Qed.

Lemma ZXY_TryConf_assert p a b wr s c x :
  In p paramsZXY -> negb b || a = true ->
  TryConfZXY p a b wr s c = AssertFails x ->
  x = WeightsMustBeHwio /\ weightsFormat <> HWIO.
Proof.
  intros Hp Hflags. unfold ZXY_TryConf. rewrite Hflags. cbn [negb].
  destruct (TryStripeShapes (argsOf p a b wr) s c) as [y | [[[] s1] c1]] eqn:Hr;
    try discriminate.
  - intros H. inversion H; subst y.
    apply TryStripeShapes_asserts in Hr.
    destruct Hr as [[-> Hr] | (_ & Hc & Hv)].
    + split; [reflexivity |]. intros Hf.
      unfold isHwio in Hr. cbn [arg_weightsFormat] in Hr. rewrite Hf in Hr.
      discriminate.
    + exfalso. cbn in Hc, Hv. apply Hv.
      apply (ZXY_paramsList_compression _ _ _ _ _ _ p Hp Hc).
  - destruct (_ <? _); discriminate.
Qed.

Lemma XY_TryConf_assert p a s c x :
  TryConfXY p a s c = AssertFails x ->
  x = WeightsMustBeHwio /\ weightsFormat <> HWIO.
Proof.
  unfold XY_TryConf.
  destruct (TryStripeShapes (argsOfXY p a) s c) as [y | [[[] s1] c1]] eqn:Hr;
    try discriminate.
  intros H. inversion H; subst y.
  apply TryStripeShapes_asserts in Hr.
  destruct Hr as [[-> Hr] | (_ & Hc & _)]; [| discriminate].
  split; [reflexivity |]. intros Hf.
  unfold isHwio in Hr. cbn [arg_weightsFormat] in Hr. rewrite Hf in Hr.
  discriminate.
Qed.

Lemma ZXY_search_assert s c x :
  searchZXY s c = AssertFails x -> x = WeightsMustBeHwio /\ weightsFormat <> HWIO.
Proof.
  unfold TryInputZXYOutputXYZ, TryInputZXYOutputXYZ_over.
  destruct (fst inputStaticAndOffset); [discriminate |].
  destruct (length paramsZXY =? 0)%nat; [discriminate |].
  generalize weightsReloadingOrder. intros options.
  revert s c. induction options as [| mode later IH]; simpl; intros s c H.
  - exfalso. eapply giveUp_not_assert; eauto.
  - apply tryEach_assert_in in H.
    destruct H as [(p & s0 & c0 & Hp & H) | (s0 & c0 & H)];
      [eapply ZXY_TryConf_assert; [exact Hp | | exact H]; reflexivity |].
    apply tryEach_assert_in in H.
    destruct H as [(p & s1 & c1 & Hp & H) | (s1 & c1 & H)];
      [eapply ZXY_TryConf_assert; [exact Hp | | exact H]; reflexivity |].
    apply tryEach_assert_in in H.
    destruct H as [(p & s2 & c2 & Hp & H) | (s2 & c2 & H)];
      [eapply ZXY_TryConf_assert; [exact Hp | | exact H]; reflexivity |].
    eapply IH; eauto.
Qed.

Lemma XY_search_assert s c x :
  searchXY s c = AssertFails x -> x = WeightsMustBeHwio /\ weightsFormat <> HWIO.
Proof.
  unfold TryInputXYOutputXYZ, TryInputXYOutputXYZ_over.
  destruct (fst inputStaticAndOffset); [discriminate |].
  destruct (negb _); [discriminate |].
  destruct (length paramsXY =? 0)%nat; [discriminate |].
  intros H. apply tryEach_assert_in in H.
  destruct H as [(p & s0 & c0 & _ & H) | (s0 & c0 & H)];
    [eapply XY_TryConf_assert; exact H |].
  apply tryEach_assert_in in H.
  destruct H as [(p & s1 & c1 & _ & H) | (s1 & c1 & H)];
    [eapply XY_TryConf_assert; exact H |].
  exfalso. eapply giveUp_not_assert; eauto.
Qed.

(** X13. The only assertion that strategy X can stop on is the one on the
    weight layout: with HWIO weights the entry point and both searches always
    return, and the assertion of line 424 (reload avoidance needs input
    buffering) and the one of line 260 are never raised. *)
Theorem TryStrategyX_stops_only_on_weight_layout s c x :
  (TryInputXYOutputXYZ mceOperation upsampleType inputShape outputShape
     weightsFormat weightsShape pad allowedBlockConfigs capabilities
     mceShapeMultiplier pleShapeMultiplier inputStaticAndOffset depthMax s c
   = AssertFails x
   \/ TryInputZXYOutputXYZ mceOperation upsampleType inputShape outputShape
        weightsFormat weightsShape pad allowedBlockConfigs capabilities
        mceShapeMultiplier pleShapeMultiplier inputStaticAndOffset depthMax s c
      = AssertFails x
   \/ TryStrategyX mceOperation upsampleType inputShape outputShape
        weightsFormat weightsShape pad allowedBlockConfigs capabilities
        mceShapeMultiplier pleShapeMultiplier inputStaticAndOffset depthMax s c
      = AssertFails x) ->
  x = WeightsMustBeHwio /\ weightsFormat <> HWIO.
Proof.
  intros [H | [H | H]].
  - eapply XY_search_assert; eauto.
  - eapply ZXY_search_assert; eauto.
  - unfold TryStrategyX, TryStrategyX_over in H.
    apply orElse_assert in H. destruct H as [H | (s0 & c0 & _ & H)].
    + eapply XY_search_assert; eauto.
    + rewrite orElse_giveUp in H. eapply ZXY_search_assert; eauto.
Qed.


(** *** What a successful entry point returns *)

Lemma accepted_trial (args : ResolverArgs) s c s' c1 w h :
  TryStripeShapes args s c = Returns (true, s', c1) ->
  let c' := setBlockAndStrategy c1 w h in
  arg_weightsFormat args = HWIO
  /\ strategy c' = STRATEGY_X /\ blockWidth c' = w /\ blockHeight c' = h
  /\ GetHeight (stripeShape (inputAllocation c'))
     mod GetHeight (GetBrickGroupShape (arg_capabilities args)) = 0
  /\ GetWidth (stripeShape (inputAllocation c'))
     mod GetWidth (GetBrickGroupShape (arg_capabilities args)) = 0
  /\ GetHeight (stripeShape (outputAllocation c'))
     mod GetHeight (GetBrickGroupShape (arg_capabilities args)) = 0
  /\ GetWidth (stripeShape (outputAllocation c'))
     mod GetWidth (GetBrickGroupShape (arg_capabilities args)) = 0.
Proof.
  intros Hr c'. subst c'.
  pose proof (resolver_success_needs_hwio _ _ _ _ _ Hr) as Hf.
  destruct (accepted_allocations _ _ _ _ _ Hr) as (Hi & Ho & _).
  apply TryStripeShapes_returns in Hr.
  destruct Hr as [(Hb & _) | (_ & Hih & Hiw & _ & _ & Hoh & How & _)];
    [discriminate |].
  cbn [setBlockAndStrategy strategy blockWidth blockHeight inputAllocation
         outputAllocation].
  rewrite Hi, Ho. repeat (split; [assumption || reflexivity |]). exact How.
Qed.

(** X14. A configuration returned by the entry point was produced for HWIO
    weights and a movable input; it carries strategy X and one of the allowed
    block configs, compatible with the hardware, the operator and the
    upsampling mode; and the height and width of its input and output
    stripes are multiples of the brick-group height and width. *)
Theorem TryStrategyX_success s c s' c' :
  strategyX s c = Returns (true, s', c') ->
  weightsFormat = HWIO
  /\ fst inputStaticAndOffset = false
  /\ strategy c' = STRATEGY_X
  /\ In (mkBlock (blockWidth c') (blockHeight c')) allowedBlockConfigs
  /\ IsBlockConfigCompatible (mkBlock (blockWidth c') (blockHeight c'))
       capabilities mceOperation upsampleType = true
  /\ GetHeight (stripeShape (inputAllocation c'))
     mod GetHeight (GetBrickGroupShape capabilities) = 0
  /\ GetWidth (stripeShape (inputAllocation c'))
     mod GetWidth (GetBrickGroupShape capabilities) = 0
  /\ GetHeight (stripeShape (outputAllocation c'))
     mod GetHeight (GetBrickGroupShape capabilities) = 0
  /\ GetWidth (stripeShape (outputAllocation c'))
     mod GetWidth (GetBrickGroupShape capabilities) = 0.
Proof.
  intros H. apply strategyX_true_in in H.
  destruct H as (s0 & c0 & [H | H]).
  - apply XY_search_true_in in H.
    destruct H as (Hstatic & _ & p & a & s1 & c1 & c2 & Hp & Hr & ->).
    destruct (XY_paramsList_block p Hp) as (Hin & Hcompat & _).
    destruct (accepted_trial _ _ _ _ _ (xy_blockWidth p) (xy_blockHeight p) Hr)
      as (Hf & Hs & Hw & Hh & Hal).
    rewrite Hw, Hh. cbn [arg_weightsFormat arg_capabilities] in Hf, Hal.
    repeat (split; [assumption |]). exact Hal.
  - apply ZXY_search_true_in in H.
    destruct H as (Hstatic & p & a & b & wr & s1 & c1 & c2 & Hp & Hr & _ & ->).
    destruct (ZXY_paramsList_block p Hp) as (Hin & Hcompat).
    destruct (accepted_trial _ _ _ _ _ (params_blockWidth p) (params_blockHeight p) Hr)
      as (Hf & Hs & Hw & Hh & Hal).
    rewrite Hw, Hh. cbn [arg_weightsFormat arg_capabilities] in Hf, Hal.
    repeat (split; [assumption |]). exact Hal.
Qed.

Lemma strategyX_success_strategy s c s' c' :
  strategyX s c = Returns (true, s', c') -> strategy c' = STRATEGY_X.
Proof.
  intros H. apply strategyX_true_in in H.
  destruct H as (s0 & c0 & [H | H]).
  - apply XY_search_true_in in H.
    destruct H as (_ & _ & p & a & s1 & c1 & c2 & _ & _ & ->). reflexivity.
  - apply ZXY_search_true_in in H.
    destruct H as (_ & p & a & b & wr & s1 & c1 & c2 & _ & _ & _ & ->).
    reflexivity.
Qed.

(** X15. Strategy X is not offered twice: on a configuration returned by a
    successful [TryStrategyX] the eligibility test [IsStrategyX] is false for
    every algorithm and every set of allowed strategies. *)
Theorem IsStrategyX_false_after_success s c s' c' algorithm allowedStrategies :
  strategyX s c = Returns (true, s', c') ->
  IsStrategyX mceOperation c' algorithm allowedStrategies = false.
Proof.
  intros H. apply strategyX_success_strategy in H.
  unfold IsStrategyX. rewrite H. simpl.
  rewrite andb_false_r. reflexivity.
Qed.

(** *** How many candidates *)

Lemma flat_map_length_le {A B : Type} (f : A -> list B) (n : nat) (l : list A) :
  (forall x, length (f x) <= n)%nat ->
  (length (flat_map f l) <= n * length l)%nat.
Proof.
  intros Hf. induction l as [| x l IH]; simpl; [lia |].
  rewrite length_app. specialize (Hf x). lia.
Qed.

Lemma sortBlockConfigs_length (l : list BlockConfig) :
  length (sortBlockConfigs l) = length l.
Proof.
  induction l as [| b l IH]; simpl; [reflexivity |].
  rewrite (Permutation_length (insertBlockConfig_perm b (sortBlockConfigs l))).
  simpl. rewrite IH. reflexivity.
Qed.

(** X16. The searches are bounded: the whole-channel search has at most one
    candidate per allowed block config, the channel-split search at most two
    per allowed block config and split count, and it makes at most nine
    resolver calls per candidate. *)
Theorem candidate_counts :
  (length paramsXY <= length allowedBlockConfigs)%nat
  /\ (length paramsZXY
      <= 2 * (length allowedBlockConfigs * Z.to_nat (GetChannels inputShape - 2)))%nat
  /\ length (trialOrder paramsZXY) = (9 * length paramsZXY)%nat.
Proof.
  split; [| split].
  - unfold XY_paramsList.
    rewrite <- (sortBlockConfigs_length allowedBlockConfigs).
    rewrite <- (Nat.mul_1_l (length (sortBlockConfigs allowedBlockConfigs))).
    apply flat_map_length_le. intros b. destruct (negb _); simpl; lia.
  - unfold ZXY_paramsList.
    assert (Hopt : (length (activationCompressionOptions mceOperation capabilities)
                    <= 2)%nat).
    { unfold activationCompressionOptions. destruct (_ && _); simpl; lia. }
    pose proof (flat_map_length_le
      (fun compression : bool =>
         flat_map (fun currBlockConfig =>
           if negb (IsBlockConfigCompatible currBlockConfig capabilities mceOperation
                      upsampleType)
           then []
           else
             map (fun numInputChannelSplits =>
                    mkParams (m_BlockHeight currBlockConfig)
                      (m_BlockWidth currBlockConfig)
                      (GetChannels inputShape / numInputChannelSplits)
                      (mulFraction (m_BlockHeight currBlockConfig)
                         (m_H pleShapeMultiplier))
                      (mulFraction (m_BlockWidth currBlockConfig)
                         (m_W pleShapeMultiplier))
                      (mulFraction (GetNumberOfOfm capabilities)
                         (m_C pleShapeMultiplier))
                      compression)
                 (channelSplits (GetChannels inputShape)))
           (sortBlockConfigs allowedBlockConfigs))
      (Z.to_nat (GetChannels inputShape - 2) * length allowedBlockConfigs)%nat
      (activationCompressionOptions mceOperation capabilities)) as Hlen.
    cbv zeta in Hlen |- *.
    etransitivity; [apply Hlen |]; [| nia].
    intros compression.
    rewrite <- (sortBlockConfigs_length allowedBlockConfigs).
    apply flat_map_length_le. intros b.
    destruct (negb _); simpl; [lia |].
    rewrite length_map. unfold channelSplits. rewrite length_map, length_seq. lia.
  - unfold trialOrder. cbn [flat_map]. rewrite !length_app, !length_map.
    cbn [length]. lia.
Qed.


End SearchOutcomes.

(** ** More on the resolver *)

Section ResolverOutcomes.

Context {E : Externals}.
Variable args : ResolverArgs.

(** X17. For a fully connected operator the weights-reloading mode has no
    effect at all: the resolver returns the same result, allocator and
    configuration for every mode. *)
Theorem fully_connected_ignores_weights_reloading weightsReloading s c :
  arg_mceOperation args = FULLY_CONNECTED ->
  TryStripeShapes (withWeightsReloading args weightsReloading) s c
  = TryStripeShapes args s c.
Proof.
  destruct args as [op a2 a3 a4 a5 a6 a7 a8 a9 a10 a11 a12 a13 a14 a15 a16 a17].
  cbn [arg_mceOperation]. intros ->.
  cbv [TryStripeShapes writeStripesAndTiles
       isFullyConnected isHwio brickGroupHeight brickGroupWidth brickGroupChannels
       shapeMultiplier outputStripeWidthMin outputStripeWidthMax
       outputStripeWidth_requested outputStripeHeightMin outputStripeHeightMax
       outputStripeHeight_requested outputStripeChannels_requested
       inputStripeHeightPre inputStripeHeight inputStripeWidthPre inputStripeWidth
       outputStripeChannels_capped mceOutputStripe strideSize inputStripeChannels
       inputStripe weightStripeChannels weightStripe needBoundaryY
       needsBoundarySlots inputStripeXZ boundarySlotSize defaultSlotSize
       totalSlotSize numInputStripesTotalX numInputStripesTotalY
       numInputStripesTotalZ needBoundaryX numInputSlots isFullHeight isFullWidth
       numInputSlotGroupsMax needSlotGroups inputTile numWeightStripesInTile
       weightTile minFcafDepth fcafWidens outputStripeChannels outputStripeHeight
       outputStripeWidth outputStripe maxNumOutputStripesInTile
       numOutputStripesTotalX numOutputStripesTotalY numOutputStripesTotalZ
       numOutputStripesTotal numOutputStripesInTile outputTileMax outputTile
       withWeightsReloading
       arg_mceOperation arg_requestedOutputStripe arg_requestedInputChannels
       arg_inputShape arg_outputShape arg_weightsFormat arg_weightsShape
       arg_capabilities arg_mceShapeMultiplier arg_pleShapeMultiplier arg_pad
       arg_inputStaticAndOffset arg_depthMax arg_allowInputBuffering
       arg_avoidInputReloading arg_activationCompression arg_weightsReloading
       MceOperation_eqb negb].
  reflexivity.
Qed.

(** X18. The input stripe is always brick-group aligned when the brick group
    is positive and the rounded input extent fits 32 bits; a failure of the
    resolver is then due to the output stripe or to the allocation. *)
Theorem input_stripe_is_aligned s c s' c' :
  0 < brickGroupHeight args -> 0 < brickGroupWidth args ->
  0 <= inputStripeHeightPre args -> 0 <= inputStripeWidthPre args ->
  0 <= GetHeight (arg_inputShape args) ->
  0 <= GetWidth (arg_inputShape args) ->
  GetHeight (arg_inputShape args) + brickGroupHeight args <= 2 ^ 32 ->
  GetWidth (arg_inputShape args) + brickGroupWidth args <= 2 ^ 32 ->
  GetHeight (inputStripe args) mod brickGroupHeight args = 0
  /\ GetWidth (inputStripe args) mod brickGroupWidth args = 0
  /\ (TryStripeShapes args s c = Returns (false, s', c') ->
      GetHeight (outputStripe args) mod brickGroupHeight args <> 0
      \/ GetWidth (outputStripe args) mod brickGroupWidth args <> 0
      \/ m_Success (snd (FitsInSram s (arg_capabilities args) (inputTile args)
                           (weightTile args) (outputTile args)
                           (arg_inputStaticAndOffset args))) = false).
Proof.
  intros Hbh Hbw Hph Hpw Hh Hw Hfh Hfw.
  assert (Hih : GetHeight (inputStripe args) mod brickGroupHeight args = 0).
  { cbn [inputStripe GetHeight dim1]. unfold inputStripeHeight.
    apply RoundUpToNearestMultiple_exact; unfold GetHeight in *; lia. }
  assert (Hiw : GetWidth (inputStripe args) mod brickGroupWidth args = 0).
  { cbn [inputStripe GetWidth dim2]. unfold inputStripeWidth.
    apply RoundUpToNearestMultiple_exact; unfold GetWidth in *; lia. }
  split; [exact Hih |]. split; [exact Hiw |].
  intros Hr. apply TryStripeShapes_returns in Hr.
  destruct Hr as [(_ & _ & _ & Hcause) | (Hb & _)]; [| discriminate].
  unfold rejectionCause in Hcause.
  destruct Hcause as [Hc | [Hc | Hc]]; [contradiction | contradiction | exact Hc].
Qed.

(** X19. The output tile never holds more than two output stripes. *)
Theorem output_tile_at_most_two_stripes :
  2 * TotalSizeBytes (outputStripe args) < 2 ^ 32 ->
  outputTile args <= 2 * TotalSizeBytes (outputStripe args).
Proof.
  intros Hfit. unfold outputTile, numOutputStripesInTile, maxNumOutputStripesInTile.
  assert (Hsize : 0 <= TotalSizeBytes (outputStripe args)).
  { unfold TotalSizeBytes, mul32 at 1. apply wrap32_range. }
  assert (Htotal : 0 <= numOutputStripesTotal args).
  { unfold numOutputStripesTotal, mul32 at 1. apply wrap32_range. }
  etransitivity; [apply Z.le_min_l |].
  assert (Hm : 0 <= Z.min 2 (numOutputStripesTotal args) <= 2) by lia.
  assert (Hprod : 0 <= TotalSizeBytes (outputStripe args)
                       * Z.min 2 (numOutputStripesTotal args)
                  <= 2 * TotalSizeBytes (outputStripe args)) by nia.
  unfold mul32. rewrite wrap32_small by lia. lia.
Qed.

End ResolverOutcomes.

(** ** Further runs on the reference platform *)

Lemma fixed_input_is_never_tried_witness :
  convSearchWith (TryStrategyX (E := refPlatform)) OFF HWIO [mkBlock 8 8] (true, 0)
    64 100000
  = Returns (false, mkBump 0 100000, emptyConfig).
Proof.
  unfold convSearchWith. eapply proj2. eapply (fixed_input_is_never_tried (E := refPlatform)). reflexivity.
Defined.

Lemma no_compatible_block_no_strategy_witness :
  convSearchWith (TryStrategyX (E := refPlatform)) OFF HWIO [mkBlock 32 32] (false, 0)
    64 100000
  = Returns (false, mkBump 0 100000, emptyConfig).
Proof.
  unfold convSearchWith. eapply proj2. eapply proj2.
  eapply (no_compatible_block_no_strategy (E := refPlatform)).
  intros b [<- | []]. vm_compute. reflexivity.
Defined.

Lemma fully_connected_with_upsampling_fails_witness :
  fullyConnectedSearch (TryStrategyX (E := refPlatform)) BILINEAR (2 ^ 20)
  = Returns (false, mkBump 0 (2 ^ 20), emptyConfig).
Proof.
  unfold fullyConnectedSearch. apply (fully_connected_with_upsampling_fails (E := refPlatform)).
  - reflexivity.
  - discriminate.
Defined.

Lemma TryInputXYOutputXYZ_failure_is_atomic_witness :
  exists s' c',
    fullyConnectedSearch (TryInputXYOutputXYZ (E := refPlatform)) OFF 100
    = Returns (false, s', c')
    /\ s' = mkBump 0 100 /\ c' = emptyConfig.
Proof.
  assert (Hrun : fullyConnectedSearch (TryInputXYOutputXYZ (E := refPlatform)) OFF 100
                 = Returns (false, mkBump 0 100, emptyConfig))
    by (vm_compute; reflexivity).
  eexists. eexists. split; [exact Hrun |].
  unfold fullyConnectedSearch in Hrun.
  apply (TryInputXYOutputXYZ_failure_is_atomic (E := refPlatform)) in Hrun. exact Hrun.
Defined.

Lemma TryInputXYOutputXYZ_success_witness :
  exists s' c',
    fullyConnectedSearch (TryInputXYOutputXYZ (E := refPlatform)) OFF (2 ^ 20)
    = Returns (true, s', c')
    /\ strategy c' = STRATEGY_X /\ blockWidth c' = 8 /\ blockHeight c' = 8.
Proof.
  assert (Hrun :
    fullyConnectedSearch (TryInputXYOutputXYZ (E := refPlatform)) OFF (2 ^ 20)
    = Returns (true, mkBump 136192 (2 ^ 20),
               mkConfig (mkAllocation (mkShape 1 8 8 64) 4096 0)
                        (mkAllocation (mkShape 1 8 8 16) 1024 135168)
                        (mkAllocation (mkShape 1 1 4096 16) 131072 4096)
                        8 8 STRATEGY_X))
    by (vm_compute; reflexivity).
  eexists. eexists. split; [exact Hrun |].
  unfold fullyConnectedSearch in Hrun.
  apply (TryInputXYOutputXYZ_success (E := refPlatform)) in Hrun.
  destruct Hrun as (_ & _ & _ & Hs & Hw & Hh & _).
  split; [exact Hs |]. split; [exact Hw | exact Hh].
Defined.

Lemma TryInputXYOutputXYZ_whole_depth_witness :
  exists s' c',
    fullyConnectedSearch (TryInputXYOutputXYZ (E := refPlatform)) OFF (2 ^ 20)
    = Returns (true, s', c')
    /\ 64 <= GetChannels (stripeShape (inputAllocation c')).
Proof.
  assert (Hrun :
    fullyConnectedSearch (TryInputXYOutputXYZ (E := refPlatform)) OFF (2 ^ 20)
    = Returns (true, mkBump 136192 (2 ^ 20),
               mkConfig (mkAllocation (mkShape 1 8 8 64) 4096 0)
                        (mkAllocation (mkShape 1 8 8 16) 1024 135168)
                        (mkAllocation (mkShape 1 1 4096 16) 131072 4096)
                        8 8 STRATEGY_X))
    by (vm_compute; reflexivity).
  eexists. eexists. split; [exact Hrun |].
  unfold fullyConnectedSearch in Hrun.
  apply (TryInputXYOutputXYZ_whole_depth (E := refPlatform)) in Hrun.
  - exact Hrun.
  - vm_compute. discriminate.
  - vm_compute. discriminate.
  - vm_compute. reflexivity.
  - vm_compute. discriminate.
Defined.

Lemma TryInputXYOutputXYZ_buffered_first_witness :
  exists s' c',
    fullyConnectedSearch (TryInputXYOutputXYZ (E := refPlatform)) OFF (2 ^ 20)
    = Returns (true, s', c')
    /\ tileSize (inputAllocation c') = 4096.
Proof.
  destruct (TryInputXYOutputXYZ_buffered_first (E := refPlatform)
              FULLY_CONNECTED OFF (mkShape 1 1 1 64) (mkShape 1 1 1 16) HWIO
              (mkShape 1 1 64 16) (0, 0) [mkBlock 8 8] (refCapabilities 0)
              unitMultiplier unitMultiplier (false, 0) (2 ^ 32 - 1)
              (mkParamsXY 8 8 64 8 8 16) (mkBump 0 (2 ^ 20)) emptyConfig
              (mkBump 136192 (2 ^ 20))
              (mkConfig (mkAllocation (mkShape 1 8 8 64) 4096 0)
                        (mkAllocation (mkShape 1 8 8 16) 1024 135168)
                        (mkAllocation (mkShape 1 1 4096 16) 131072 4096)
                        8 8 STRATEGY_X))
    as (q & s' & c' & _ & _ & Hres).
  - reflexivity.
  - reflexivity.
  - vm_compute. left. reflexivity.
  - vm_compute. reflexivity.
  - exists s', c'. split; [exact Hres |].
    unfold fullyConnectedSearch.
    assert (Hrun :
      TryInputXYOutputXYZ (E := refPlatform) FULLY_CONNECTED OFF (mkShape 1 1 1 64)
        (mkShape 1 1 1 16) HWIO (mkShape 1 1 64 16) (0, 0) [mkBlock 8 8]
        (refCapabilities 0) unitMultiplier unitMultiplier (false, 0) (2 ^ 32 - 1)
        (mkBump 0 (2 ^ 20)) emptyConfig
      = Returns (true, mkBump 136192 (2 ^ 20),
                 mkConfig (mkAllocation (mkShape 1 8 8 64) 4096 0)
                          (mkAllocation (mkShape 1 8 8 16) 1024 135168)
                          (mkAllocation (mkShape 1 1 4096 16) 131072 4096)
                          8 8 STRATEGY_X))
      by (vm_compute; reflexivity).
    rewrite Hrun in Hres. inversion Hres. reflexivity.
Defined.

Lemma TryInputZXYOutputXYZ_failure_is_atomic_above_lanes_witness :
  exists s' c',
    convSearchWith (TryInputZXYOutputXYZ (E := refPlatform)) OFF HWIO [mkBlock 8 8]
      (false, 0) 64 100
    = Returns (false, s', c')
    /\ s' = mkBump 0 100 /\ c' = emptyConfig.
Proof.
  assert (Hrun :
    convSearchWith (TryInputZXYOutputXYZ (E := refPlatform)) OFF HWIO [mkBlock 8 8]
      (false, 0) 64 100
    = Returns (false, mkBump 0 100, emptyConfig))
    by (vm_compute; reflexivity).
  eexists. eexists. split; [exact Hrun |].
  unfold convSearchWith in Hrun.
  refine (proj1 (TryInputZXYOutputXYZ_failure_is_atomic_above_lanes
                   (E := refPlatform) _ _ _ _ _ _ _ _ _ _ _ _ _ _ _ _ _ _ _ _)
            Hrun).
  - vm_compute. reflexivity.
  - vm_compute. discriminate.
  - vm_compute. reflexivity.
Defined.

Lemma TryInputZXYOutputXYZ_needs_more_than_lanes_witness :
  convSearchWith (TryInputZXYOutputXYZ (E := refPlatform)) OFF HWIO [mkBlock 8 8]
    (false, 0) 16 100000
  <> Returns (true, mkBump 0 100000, emptyConfig).
Proof.
  unfold convSearchWith.
  apply (TryInputZXYOutputXYZ_needs_more_than_lanes (E := refPlatform)).
  - vm_compute. reflexivity.
  - vm_compute. discriminate.
  - vm_compute. discriminate.
Defined.

Lemma TryStrategyX_needs_hwio_witness :
  convSearchWith (TryStrategyX (E := refPlatform)) OFF HWIM [mkBlock 8 8]
    (false, 0) 64 100000
  <> Returns (true, mkBump 0 100000, emptyConfig).
Proof.
  unfold convSearchWith.
  apply (TryStrategyX_needs_hwio (E := refPlatform)). discriminate.
Defined.

Lemma TryStrategyX_stops_only_on_weight_layout_witness :
  exists x,
    convSearchWith (TryStrategyX (E := refPlatform)) OFF HWIM [mkBlock 8 8]
      (false, 0) 64 100000
    = AssertFails x
    /\ x = WeightsMustBeHwio.
Proof.
  assert (Hrun :
    convSearchWith (TryStrategyX (E := refPlatform)) OFF HWIM [mkBlock 8 8]
      (false, 0) 64 100000
    = AssertFails WeightsMustBeHwio)
    by (vm_compute; reflexivity).
  eexists. split; [exact Hrun |].
  unfold convSearchWith in Hrun.
  exact (proj1 (TryStrategyX_stops_only_on_weight_layout (E := refPlatform)
                  _ _ _ _ _ _ _ _ _ _ _ _ _ _ _ _
                  (or_intror (or_intror Hrun)))).
Defined.

Lemma TryStrategyX_success_witness :
  exists s' c',
    convSearchWith (TryStrategyX (E := refPlatform)) OFF HWIO [mkBlock 8 8]
      (false, 0) 64 100000
    = Returns (true, s', c')
    /\ strategy c' = STRATEGY_X
    /\ In (mkBlock (blockWidth c') (blockHeight c')) [mkBlock 8 8].
Proof.
  assert (Hrun :
    convSearchWith (TryStrategyX (E := refPlatform)) OFF HWIO [mkBlock 8 8]
      (false, 0) 64 100000
    = Returns (true, mkBump 6144 100000,
               mkConfig (mkAllocation (mkShape 1 8 8 32) 4096 0)
                        (mkAllocation (mkShape 1 8 8 16) 1024 5120)
                        (mkAllocation (mkShape 1 1 32 16) 1024 4096)
                        8 8 STRATEGY_X))
    by (vm_compute; reflexivity).
  eexists. eexists. split; [exact Hrun |].
  unfold convSearchWith in Hrun.
  apply (TryStrategyX_success (E := refPlatform)) in Hrun.
  destruct Hrun as (_ & _ & Hs & Hin & _).
  split; [exact Hs | exact Hin].
Defined.

Lemma IsStrategyX_false_after_success_witness :
  exists s' c',
    convSearchWith (TryStrategyX (E := refPlatform)) OFF HWIO [mkBlock 8 8]
      (false, 0) 64 100000
    = Returns (true, s', c')
    /\ IsStrategyX CONVOLUTION c' Direct [Strategy7; StrategyFc] = false.
Proof.
  assert (Hrun :
    convSearchWith (TryStrategyX (E := refPlatform)) OFF HWIO [mkBlock 8 8]
      (false, 0) 64 100000
    = Returns (true, mkBump 6144 100000,
               mkConfig (mkAllocation (mkShape 1 8 8 32) 4096 0)
                        (mkAllocation (mkShape 1 8 8 16) 1024 5120)
                        (mkAllocation (mkShape 1 1 32 16) 1024 4096)
                        8 8 STRATEGY_X))
    by (vm_compute; reflexivity).
  eexists. eexists. split; [exact Hrun |].
  unfold convSearchWith in Hrun.
  exact (IsStrategyX_false_after_success (E := refPlatform)
           _ _ _ _ _ _ _ _ _ _ _ _ _ _ _ _ _ Direct [Strategy7; StrategyFc] Hrun).
Defined.

Lemma fully_connected_ignores_weights_reloading_witness :
  TryStripeShapes (E := refPlatform)
    (withWeightsReloading (fullyConnectedArgs NO_RELOADING)
       RELOADING_NO_DOUBLE_BUFFERING)
    (mkBump 0 (2 ^ 20)) emptyConfig
  = TryStripeShapes (E := refPlatform) (fullyConnectedArgs NO_RELOADING)
      (mkBump 0 (2 ^ 20)) emptyConfig.
Proof.
  apply (fully_connected_ignores_weights_reloading (E := refPlatform)). reflexivity.
Defined.

Lemma input_stripe_is_aligned_witness :
  GetHeight (inputStripe (E := refPlatform) bufferedArgs) mod 8 = 0
  /\ GetWidth (inputStripe (E := refPlatform) bufferedArgs) mod 8 = 0.
Proof.
  destruct (input_stripe_is_aligned (E := refPlatform) bufferedArgs
              (mkBump 0 0) emptyConfig (mkBump 0 0) emptyConfig)
    as (Hh & Hw & _).
  - vm_compute. reflexivity.
  - vm_compute. reflexivity.
  - vm_compute. discriminate.
  - vm_compute. discriminate.
  - vm_compute. discriminate.
  - vm_compute. discriminate.
  - vm_compute. discriminate.
  - vm_compute. discriminate.
  - split; [exact Hh | exact Hw].
Defined.

Lemma output_tile_at_most_two_stripes_witness :
  outputTile (E := refPlatform) cappedArgs <= 2 * 2560.
Proof.
  apply (output_tile_at_most_two_stripes (E := refPlatform) cappedArgs).
  vm_compute. reflexivity.
Defined.
